(** * The MCP Streamable-HTTP test client ([scripts/test-mcp-client.py])

    A shallow embedding of the [MCPClient] class and a verification of its
    protocol behaviour: identifier allocation, session-token handling,
    response decoding and the [initialize] handshake.

    Conventions of the embedding.
    - Python [str] values are [string]s; a character stands for the code
      point of the same number (U+0000 to U+00FF).
    - Python [int] is [Z] (unbounded).
    - Python values that travel as JSON are the type [json]; [JNull] is
      Python's [None].  Numbers with a fraction or an exponent are not
      modelled: the client builds none and never looks inside a decoded
      document.
    - A Python [dict] with string keys that is only built and looked up is
      a [gmap]; the JSON objects, whose key order is visible on the wire,
      are association lists.
    - The two library calls [json.loads] and [requests.post] are not part
      of the script: the parser and the peer are parameters of the
      development.  Console output ([print]) has no effect on the client
      and is left out. *)

From Stdlib Require Import ZArith Ascii String List Bool Lia.
From stdpp Require Import base option list gmap strings.
Import ListNotations.

Local Open Scope Z_scope.
Set Warnings "-register-all".

(** ** Python strings *)

Module PyStr.

(** [str.isspace] on the code points below 256: the characters that
    [str.strip()] removes. *)
Definition isspace (c : ascii) : bool :=
  let n := nat_of_ascii c in
  ((9 <=? n) && (n <=? 13))%nat || ((28 <=? n) && (n <=? 32))%nat
  || (n =? 133)%nat || (n =? 160)%nat.

Definition newline : ascii := ascii_of_nat 10.

Fixpoint lstrip (s : string) : string :=
  match s with
  | EmptyString => EmptyString
  | String c s' => if isspace c then lstrip s' else s
  end.

Fixpoint rstrip (s : string) : string :=
  match s with
  | EmptyString => EmptyString
  | String c s' =>
      match rstrip s' with
      | EmptyString => if isspace c then EmptyString else String c EmptyString
      | r => String c r
      end
  end.

(** [s.strip()] *)
Definition strip (s : string) : string := rstrip (lstrip s).

(** [s.split('\n')]: never empty, [''.split('\n') == ['']]. *)
Fixpoint split_lines (s : string) : list string :=
  match s with
  | EmptyString => [EmptyString]
  | String c s' =>
      if Ascii.eqb c newline then EmptyString :: split_lines s'
      else match split_lines s' with
           | l :: ls => String c l :: ls
           | [] => [String c EmptyString]
           end
  end.

(** [s.startswith(p)] *)
Definition startswith (s p : string) : bool := String.prefix p s.

(** [s[n:]] *)
Fixpoint slice_from (n : nat) (s : string) : string :=
  match n, s with
  | O, _ => s
  | S n', String _ s' => slice_from n' s'
  | S _, EmptyString => EmptyString
  end.

Definition lower_char (c : ascii) : ascii :=
  let n := nat_of_ascii c in
  if ((65 <=? n) && (n <=? 90))%nat then ascii_of_nat (n + 32) else c.

(** [s.lower()] on ASCII letters *)
Fixpoint lower (s : string) : string :=
  match s with
  | EmptyString => EmptyString
  | String c s' => String (lower_char c) (lower s')
  end.

(** Truth value of an optional string: [None] and [''] are false. *)
Definition truthy (o : option string) : bool :=
  match o with
  | Some (String _ _) => true
  | _ => false
  end.

End PyStr.

(** ** JSON values *)

Inductive json : Type :=
| JNull
| JBool (b : bool)
| JInt (n : Z)
| JStr (s : string)
| JArr (items : list json)
| JObj (fields : list (string * json)).

Module Json.

(** Truth value of a Python value, as used by [x or y]. *)
Definition truthy (v : json) : bool :=
  match v with
  | JNull => false
  | JBool b => b
  | JInt n => negb (n =? 0)
  | JStr s => PyStr.truthy (Some s)
  | JArr l => match l with [] => false | _ => true end
  | JObj l => match l with [] => false | _ => true end
  end.

(** [x or y] *)
Definition or_else (x y : json) : json := if truthy x then x else y.

Fixpoint assoc (k : string) (l : list (string * json)) : option json :=
  match l with
  | [] => None
  | (k', v) :: l' => if String.eqb k k' then Some v else assoc k l'
  end.

(** The member [k] of an object, if [v] is an object that has one. *)
Definition member (k : string) (v : json) : option json :=
  match v with
  | JObj l => assoc k l
  | _ => None
  end.

End Json.

(** ** HTTP messages *)

(** [requests.structures.CaseInsensitiveDict]: the store is keyed by the
    lower-cased name and keeps the name as it was written next to the
    value. *)
Module CID.

Abbreviation t := (gmap string (string * string)).

Definition contains (k : string) (d : t) : bool :=
  bool_decide (is_Some (d !! PyStr.lower k)).

Definition get (k : string) (d : t) : option string :=
  snd <$> d !! PyStr.lower k.

Definition setitem (k v : string) (d : t) : t :=
  <[PyStr.lower k := (k, v)]> d.

End CID.

(** What [requests.post(url, json=..., headers=...)] is given. *)
Record Post : Type := mkPost {
  url : string;
  body : json;
  post_headers : gmap string string
}.

(** The part of [requests.Response] that the client reads. *)
Record Response : Type := mkResponse {
  headers : CID.t;
  text : string
}.

Inductive exn : Type :=
| RequestException (why : string)   (* raised by [requests.post] *)
| JSONDecodeError                   (* raised by [json.loads], [Response.json] *)
| KeyError (k : string).

Inductive result (A : Type) : Type :=
| Ok (a : A)
| Raise (e : exn).
Arguments Ok {A} a.
Arguments Raise {A} e.

(** One HTTP round trip: what was posted and what came of it. *)
Record Exchange : Type := mkExchange {
  sent : Post;
  reply : result Response
}.

(** ** The client object and the monad of its methods *)

Record MCPClient : Type := mkClient {
  base_url : string;
  endpoint : string;
  session_id : option string;
  message_id : Z
}.

(** A method runs on the client object and on the wire: the exchanges made
    so far, oldest first.  An exception leaves both as they were when it
    was raised. *)
Record State : Type := mkState {
  client : MCPClient;
  wire : list Exchange
}.

Definition M (A : Type) : Type := State → result A * State.

#[local] Instance M_ret : MRet M := λ A a st, (Ok a, st).
#[local] Instance M_bind : MBind M := λ A B f m st,
  match m st with
  | (Ok a, st') => f a st'
  | (Raise e, st') => (Raise e, st')
  end.

Definition raise {A} (e : exn) : M A := λ st, (Raise e, st).

Definition lift {A} (r : result A) : M A := λ st, (r, st).

Definition self : M MCPClient := λ st, (Ok (client st), st).

Definition set_session_id (v : option string) : M unit := λ st,
  let c := client st in
  (Ok tt, mkState (mkClient (base_url c) (endpoint c) v (message_id c)) (wire st)).

Definition set_message_id (n : Z) : M unit := λ st,
  let c := client st in
  (Ok tt, mkState (mkClient (base_url c) (endpoint c) (session_id c) n) (wire st)).

Definition session_header : string := "Mcp-Session-Id".
Definition data_prefix : string := "data: ".

Section Client.

(** [json.loads]: [None] when it raises [JSONDecodeError]. *)
Variable json_loads : string → option json.

(** The peer: what [requests.post] comes back with, given everything
    exchanged so far and the message posted now. *)
Variable server : list Exchange → Post → result Response.

Definition loads (s : string) : result json :=
  match json_loads s with
  | Some v => Ok v
  | None => Raise JSONDecodeError
  end.

Definition requests_post (u : string) (payload : json)
    (hs : gmap string string) : M Response := λ st,
  let p := mkPost u payload hs in
  let r := server (wire st) p in
  (r, mkState (client st) (wire st ++ [mkExchange p r])).

(** [response.headers[k]] *)
Definition headers_getitem (k : string) (r : Response) : M string :=
  match CID.get k (headers r) with
  | Some v => mret v
  | None => raise (KeyError k)
  end.

(** [__init__] *)
Definition __init__ (base : string) : MCPClient :=
  mkClient base (base +:+ "/mcp") None 0.

Definition _next_id : M Z :=
  c ← self;
  set_message_id (message_id c + 1);;
  c ← self;
  mret (message_id c).

(** The [for line in lines] loop of [_send_request]: the first line that
    starts with [data: ] is parsed and returned; falling off the loop
    (and so off the function) returns [None]. *)
Fixpoint scan_lines (lines : list string) : result json :=
  match lines with
  | [] => Ok JNull
  | line :: rest =>
      if PyStr.startswith line data_prefix
      then match loads (PyStr.slice_from 6 line) with
           | Ok data => Ok data
           | Raise e => Raise e
           end
      else scan_lines rest
  end.

(** Lines 51 to 63 of [_send_request]: the decoding of a response.
    [response.json()] is [json.loads] on the text of the body. *)
Definition decode (response : Response) : result json :=
  if bool_decide (CID.get "Content-Type" (headers response)
                  = Some "text/event-stream")
  then
    let lines := PyStr.split_lines (PyStr.strip (text response)) in
    scan_lines lines
  else
    match loads (text response) with
    | Ok data => Ok data
    | Raise e => Raise e
    end.

(** The [headers] dictionary, built the same way by [_send_request]
    (lines 25 to 31) and [_send_notification] (lines 67 to 73). *)
Definition request_headers (c : MCPClient) : gmap string string :=
  let hs : gmap string string :=
    <["Accept" := "application/json, text/event-stream"]>
      {["Content-Type" := "application/json"]} in
  match session_id c with
  | Some t => if PyStr.truthy (Some t) then <[session_header := t]> hs else hs
  | None => hs
  end.

(** The [payload] dictionary of [_send_request]. *)
Definition request_payload (id : Z) (method : string) (params : json) : json :=
  JObj [("jsonrpc", JStr "2.0"); ("id", JInt id); ("method", JStr method);
        ("params", Json.or_else params (JObj []))].

(** The [payload] dictionary of [_send_notification]. *)
Definition notification_payload (method : string) (params : json) : json :=
  JObj [("jsonrpc", JStr "2.0"); ("method", JStr method);
        ("params", Json.or_else params (JObj []))].

Definition _send_request (method : string) (params : json) : M json :=
  c ← self;
  let hs := request_headers c in
  id ← _next_id;
  let payload := request_payload id method params in
  response ← requests_post (endpoint c) payload hs;
  (if CID.contains session_header (headers response)
   then v ← headers_getitem session_header response;
        set_session_id (Some v)
   else mret tt);;
  lift (decode response).

Definition _send_notification (method : string) (params : json) : M unit :=
  c ← self;
  let hs := request_headers c in
  let payload := notification_payload method params in
  requests_post (endpoint c) payload hs;;
  mret tt.

Definition initialize_params : json :=
  JObj [("protocolVersion", JStr "2024-11-05");
        ("capabilities", JObj []);
        ("clientInfo", JObj [("name", JStr "python-test-client");
                             ("version", JStr "1.0.0")])].

Definition initialize : M json :=
  result ← _send_request "initialize" initialize_params;
  _send_notification "notifications/initialized" JNull;;
  mret result.

Definition list_tools : M json := _send_request "tools/list" JNull.

Definition call_tool (name : string) (arguments : json) : M json :=
  _send_request "tools/call"
    (JObj [("name", JStr name);
           ("arguments", Json.or_else arguments (JObj []))]).

End Client.

(** ** Programs: sequences of calls on one client *)

(** The methods a caller can invoke on a client object. *)
Inductive call : Type :=
| SendRequest (method : string) (params : json)
| SendNotification (method : string) (params : json)
| Initialize
| ListTools
| CallTool (name : string) (arguments : json).

(** How many times a call runs [_send_request]: [initialize],
    [list_tools] and [call_tool] each do so exactly once. *)
Definition requests_of (c : call) : nat :=
  match c with
  | SendNotification _ _ => 0
  | _ => 1
  end.

Definition count_requests (cs : list call) : nat :=
  fold_right (λ c n, (requests_of c + n)%nat) 0%nat cs.

Section Programs.

Variable json_loads : string → option json.
Variable server : list Exchange → Post → result Response.

Definition run_call (c : call) : M json :=
  match c with
  | SendRequest m p => _send_request json_loads server m p
  | SendNotification m p => _send_notification server m p;; mret JNull
  | Initialize => initialize json_loads server
  | ListTools => list_tools json_loads server
  | CallTool n a => call_tool json_loads server n a
  end.

(** The calls are made one after the other on the same object; what a
    call returns or raises is the caller's business and does not stop the
    next call.  (A caller that stops at the first exception has run a
    prefix of the calls, so it is covered: every statement below holds
    for all call lists.) *)
Fixpoint run_calls (cs : list call) (st : State) : State :=
  match cs with
  | [] => st
  | c :: cs' => run_calls cs' (snd (run_call c st))
  end.

(** A client fresh from the constructor, nothing on the wire yet. *)
Definition fresh (base : string) : State := mkState (__init__ base) [].

End Programs.

(** ** Reading the wire *)

(** A posted message is a request when its envelope has an [id] member. *)
Definition request_id (p : Post) : option json := Json.member "id" (body p).

Definition is_request (p : Post) : bool := bool_decide (is_Some (request_id p)).

(** The ids of the request envelopes on the wire, oldest first. *)
Definition request_ids (w : list Exchange) : list json :=
  omap (λ e, request_id (sent e)) w.

(** The value of the session header of a posted message, if it has one. *)
Definition carried (p : Post) : option string := post_headers p !! session_header.

(** The session token that the response of an exchange supplies. *)
Definition supplied (e : Exchange) : option string :=
  match reply e with
  | Ok r => CID.get session_header (headers r)
  | Raise _ => None
  end.

(** The token a client holds after the exchanges [w], having held [h]
    before them: the one supplied last by the response to a request. *)
Definition capture (h : option string) (e : Exchange) : option string :=
  if is_request (sent e)
  then match supplied e with Some t => Some t | None => h end
  else h.

Definition held_after (w : list Exchange) (h : option string) : option string :=
  fold_left capture w h.

(** What a client that holds [h] attaches to the next message. *)
Definition attached (h : option string) : option string :=
  if PyStr.truthy h then h else None.

(** ** A reference parser

    The theorems below hold for every parser put in the place of
    [json.loads].  To evaluate the client on concrete bodies, this module
    gives one for a fragment of JSON: [null], [true], [false], integers,
    strings without escapes, arrays and objects. *)

Module RefJson.

Definition dquote : ascii := ascii_of_nat 34.
Definition backslash : ascii := ascii_of_nat 92.

Definition is_ws (c : ascii) : bool :=
  match c with
  | " " | "009" | "010" | "013" => true
  | _ => false
  end%char.

Fixpoint skip_ws (s : string) : string :=
  match s with
  | String c s' => if is_ws c then skip_ws s' else s
  | EmptyString => s
  end.

Definition digit (c : ascii) : option Z :=
  let n := nat_of_ascii c in
  if ((48 <=? n) && (n <=? 57))%nat then Some (Z.of_nat n - 48) else None.

Fixpoint digits (acc : Z) (s : string) : Z * string :=
  match s with
  | String c s' =>
      match digit c with
      | Some d => digits (acc * 10 + d) s'
      | None => (acc, s)
      end
  | EmptyString => (acc, s)
  end.

(** The characters of a string literal, up to its closing quote. *)
Fixpoint chars (s : string) : option (string * string) :=
  match s with
  | EmptyString => None
  | String c s' =>
      if Ascii.eqb c dquote then Some (EmptyString, s')
      else if Ascii.eqb c backslash then None
      else match chars s' with
           | Some (a, r) => Some (String c a, r)
           | None => None
           end
  end.

Definition word (w : string) (v : json) (s : string) : option (json * string) :=
  if String.prefix w s
  then Some (v, PyStr.slice_from (String.length w) s)
  else None.

Fixpoint value (fuel : nat) (s : string) : option (json * string) :=
  match fuel with
  | O => None
  | S fuel' =>
      match skip_ws s with
      | EmptyString => None
      | String c s' as t =>
          if Ascii.eqb c dquote then
            match chars s' with
            | Some (a, r) => Some (JStr a, r)
            | None => None
            end
          else match c with
          | "["%char =>
              match skip_ws s' with
              | String "]" r => Some (JArr [], r)
              | _ => match items fuel' s' with
                     | Some (l, r) => Some (JArr l, r)
                     | None => None
                     end
              end
          | "{"%char =>
              match skip_ws s' with
              | String "}" r => Some (JObj [], r)
              | _ => match members fuel' s' with
                     | Some (l, r) => Some (JObj l, r)
                     | None => None
                     end
              end
          | "-"%char =>
              match s' with
              | String d _ =>
                  match digit d with
                  | Some _ => let '(n, r) := digits 0 s' in Some (JInt (- n), r)
                  | None => None
                  end
              | EmptyString => None
              end
          | "n"%char => word "null" JNull t
          | "t"%char => word "true" (JBool true) t
          | "f"%char => word "false" (JBool false) t
          | _ =>
              match digit c with
              | Some _ => let '(n, r) := digits 0 t in Some (JInt n, r)
              | None => None
              end
          end
      end
  end
with items (fuel : nat) (s : string) : option (list json * string) :=
  match fuel with
  | O => None
  | S fuel' =>
      match value fuel' s with
      | Some (v, r) =>
          match skip_ws r with
          | String "," r' =>
              match items fuel' r' with
              | Some (l, r'') => Some (v :: l, r'')
              | None => None
              end
          | String "]" r' => Some ([v], r')
          | _ => None
          end
      | None => None
      end
  end
with members (fuel : nat) (s : string)
    : option (list (string * json) * string) :=
  match fuel with
  | O => None
  | S fuel' =>
      match skip_ws s with
      | String c s' =>
          if Ascii.eqb c dquote then
            match chars s' with
            | Some (k, r) =>
                match skip_ws r with
                | String ":" r' =>
                    match value fuel' r' with
                    | Some (v, r'') =>
                        match skip_ws r'' with
                        | String "," r3 =>
                            match members fuel' r3 with
                            | Some (l, r4) => Some ((k, v) :: l, r4)
                            | None => None
                            end
                        | String "}" r3 => Some ([(k, v)], r3)
                        | _ => None
                        end
                    | None => None
                    end
                | _ => None
                end
            | None => None
            end
          else None
      | EmptyString => None
      end
  end.

(** The whole text must be one document. *)
Definition loads (s : string) : option json :=
  match value (2 * String.length s + 2) s with
  | Some (v, r) =>
      match skip_ws r with
      | EmptyString => Some v
      | _ => None
      end
  | None => None
  end.

(** Bodies are written with ['] where the text has a double quote. *)
Fixpoint q (s : string) : string :=
  match s with
  | EmptyString => EmptyString
  | String c s' => String (if Ascii.eqb c "'" then dquote else c) (q s')
  end.

End RefJson.


(** ** What a client in a given state posts *)

(** The message [_send_request] posts when run on the client [c]. *)
Definition request_post (c : MCPClient) (method : string) (params : json)
    : Post :=
  mkPost (endpoint c) (request_payload (message_id c + 1) method params)
         (request_headers c).

(** The message [_send_notification] posts when run on the client [c]. *)
Definition notification_post (c : MCPClient) (method : string) (params : json)
    : Post :=
  mkPost (endpoint c) (notification_payload method params) (request_headers c).

(** The exchanges [w], made by a client that held the token [h] and the
    counter [n] before them, follow the protocol: each message carries
    what the client held when it was posted, and each request takes the
    next identifier. *)
Fixpoint follows (h : option string) (n : Z) (w : list Exchange) : Prop :=
  match w with
  | [] => True
  | x :: w' =>
      carried (sent x) = attached h
      ∧ (if is_request (sent x)
         then request_id (sent x) = Some (JInt (n + 1))
         else True)
      ∧ follows (capture h x) (if is_request (sent x) then n + 1 else n) w'
  end.

(** [1; 2; ...; k] shifted by [n], as JSON numbers. *)
Definition ids_from (n : Z) (k : nat) : list json :=
  map (λ i, JInt (n + Z.of_nat i)) (seq 1 k).

(** What running calls from [st] leaves behind: the exchanges [w] added
    to the wire follow the protocol, and the client holds what they
    leave it with. *)
Definition extends (st st' : State) (k : nat) : Prop :=
  ∃ w : list Exchange,
    wire st' = wire st ++ w
    ∧ follows (session_id (client st)) (message_id (client st)) w
    ∧ session_id (client st') = held_after w (session_id (client st))
    ∧ message_id (client st') = message_id (client st) + Z.of_nat k
    ∧ length (request_ids w) = k.

Definition event_stream (r : Response) : Prop :=
  CID.get "Content-Type" (headers r) = Some "text/event-stream".

Definition is_data_line (line : string) : bool :=
  PyStr.startswith line data_prefix.

(** No exchange of [w] has a response that supplies a token other
    than [t]. *)
Definition keeps (t : string) (x : Exchange) : Prop :=
  supplied x = None ∨ supplied x = Some t.

(** The same, looking only at the responses to requests. *)
Definition request_keeps (t : string) (x : Exchange) : Prop :=
  is_request (sent x) = true → keeps t x.

(** ** The statements of the specification that the code does not meet,
       written out as they stand *)

(** "Once any response header supplies a session token, every subsequent
    outgoing request and notification carries that exact token, until a
    later response supplies a different one." *)
Definition token_always_carried : Prop :=
  ∀ (json_loads : string → option json)
    (server : list Exchange → Post → result Response)
    (base : string) (cs : list call)
    (pre : list Exchange) (e : Exchange) (mid : list Exchange)
    (e' : Exchange) (post : list Exchange) (t : string),
    wire (run_calls json_loads server cs (fresh base))
      = pre ++ e :: mid ++ e' :: post →
    supplied e = Some t →
    Forall (keeps t) mid →
    carried (sent e') = Some t.

(** The first successfully parsed document among the [data: ] lines, in
    the words of the specification: a line that fails to parse is passed
    over. *)
Fixpoint first_parsed (json_loads : string → option json)
    (lines : list string) : json :=
  match lines with
  | [] => JNull
  | line :: rest =>
      if is_data_line line
      then match json_loads (PyStr.slice_from 6 line) with
           | Some data => data
           | None => first_parsed json_loads rest
           end
      else first_parsed json_loads rest
  end.

(** "The decoder returns the first successfully parsed JSON object among
    the lines beginning with [data: ]; a [data: ] line that fails to parse
    does not abort decoding." *)
Definition first_parsed_returned : Prop :=
  ∀ (json_loads : string → option json) (r : Response),
    event_stream r →
    decode json_loads r
    = Ok (first_parsed json_loads (PyStr.split_lines (text r))).

(** "The notification carries the session token captured from the
    initialize response (if any), and [initialize] returns the decoded
    result of the first exchange." *)
Definition handshake_carries_captured : Prop :=
  ∀ (json_loads : string → option json)
    (server : list Exchange → Post → result Response)
    (st : State) (r : Response) (v : json) (t : string),
    let p := request_post (client st) "initialize" initialize_params in
    server (wire st) p = Ok r →
    decode json_loads r = Ok v →
    CID.get session_header (headers r) = Some t →
    ∃ e2 : Exchange,
      wire (snd (initialize json_loads server st))
        = wire st ++ [mkExchange p (Ok r); e2]
      ∧ carried (sent e2) = Some t
      ∧ match reply e2 with
        | Ok _ => fst (initialize json_loads server st) = Ok v
        | Raise x => fst (initialize json_loads server st) = Raise x
        end.

(** "For every event-stream body containing no line that begins with
    [data: ], decoding yields an absent result and does not raise." *)
Definition no_data_line_no_message : Prop :=
  ∀ (json_loads : string → option json) (r : Response),
    event_stream r →
    Forall (λ line, is_data_line line = false) (PyStr.split_lines (text r)) →
    decode json_loads r = Ok JNull.

(** ** Sample peers and responses *)

Module Samples.

Definition with_header (k : string) (v : option string) (d : CID.t) : CID.t :=
  match v with
  | Some x => CID.setitem k x d
  | None => d
  end.

(** A response with the given session header, content type and body. *)
Definition response (sid ctype : option string) (txt : string) : Response :=
  mkResponse (with_header "Mcp-Session-Id" sid
                (with_header "Content-Type" ctype ∅)) txt.

Definition ok_body : string :=
  RefJson.q "{'jsonrpc':'2.0','id':1,'result':{'ok':true}}".

Definition ok_document : json :=
  JObj [("jsonrpc", JStr "2.0"); ("id", JInt 1);
        ("result", JObj [("ok", JBool true)])].

Definition tools_body : string :=
  RefJson.q "data: {'jsonrpc':'2.0','id':2,'result':{'tools':[]}}" +:+
  String PyStr.newline (String PyStr.newline EmptyString).

Definition tools_document : json :=
  JObj [("jsonrpc", JStr "2.0"); ("id", JInt 2);
        ("result", JObj [("tools", JArr [])])].

Definition json_type : option string := Some "application/json".
Definition sse_type : option string := Some "text/event-stream".

(** A peer that names the session [t] in every response. *)
Definition naming (t : string) : list Exchange → Post → result Response :=
  λ _ _, Ok (response (Some t) json_type ok_body).

(** A peer that names the session [t] in its first response only. *)
Definition naming_once (t : string) : list Exchange → Post → result Response :=
  λ w _, Ok (response (match w with [] => Some t | _ => None end)
                      json_type ok_body).

(** Two event-stream bodies: the first [data: ] line does not parse and
    the second does; the only line is indented. *)
Definition bad_then_good : Response :=
  response None sse_type
    ("data: oops" +:+ String PyStr.newline "data: 1").

Definition indented : Response := response None sse_type " data: 1".

(** An event-stream body of framing lines only. *)
Definition framing_only : Response :=
  response None sse_type
    ("event: ping" +:+ String PyStr.newline (": keep-alive" +:+
     String PyStr.newline (String PyStr.newline EmptyString))).

(** A reply with no content type and a body that is not JSON. *)
Definition not_json : Response := response (Some "abc") None "<html>".

(** The state of a client that has made [k] requests and holds [h]. *)
Definition client_at (h : option string) (k : Z) : State :=
  mkState (mkClient "http://h" "http://h/mcp" h k) [].

(** Filler for the positions of a wire that do not exist. *)
Definition nothing : Exchange :=
  mkExchange (mkPost "" JNull ∅) (Raise (RequestException "")).

(** Two requests to a peer that names the session by the empty string. *)
Definition unnamed_wire : list Exchange :=
  wire (run_calls RefJson.loads (naming "") [ListTools; ListTools]
          (fresh "http://h")).

(** The handshake and a request, to a peer that names the session [abc]. *)
Definition named_wire : list Exchange :=
  wire (run_calls RefJson.loads (naming "abc") [Initialize; ListTools]
          (fresh "http://h")).

End Samples.

(** ** The driver ([main]) *)

(** What the driver can raise: what the client raises, and the
    [TypeError] of an operation applied to a value of the wrong type. *)
Inductive driver_exn : Type :=
| Raised (e : exn)
| TypeError.

Inductive outcome (A : Type) : Type :=
| Done (a : A)
| Failed (e : driver_exn).
Arguments Done {A} a.
Arguments Failed {A} e.

#[local] Instance outcome_ret : MRet outcome := λ A a, Done a.
#[local] Instance outcome_bind : MBind outcome := λ A B f o,
  match o with
  | Done a => f a
  | Failed e => Failed e
  end.

(** The operations of Python that the driver applies to a decoded
    document, whatever its type turns out to be. *)
Module PyVal.

(** [k in s], both strings: [k] occurs in [s]. *)
Fixpoint substring_of (k s : string) : bool :=
  String.prefix k s
  || match s with
     | EmptyString => false
     | String _ s' => substring_of k s'
     end.

Definition is_str (k : string) (v : json) : bool :=
  match v with
  | JStr s => String.eqb s k
  | _ => false
  end.

(** [k in v] for a string [k]: a key of a dict, an element of a list, a
    part of a string; anything else is not iterable. *)
Definition contains (k : string) (v : json) : outcome bool :=
  match v with
  | JObj l => Done (bool_decide (is_Some (Json.assoc k l)))
  | JArr l => Done (existsb (is_str k) l)
  | JStr s => Done (substring_of k s)
  | _ => Failed TypeError
  end.

(** [v[k]] for a string [k]: only a dict can be indexed by a string. *)
Definition getitem (v : json) (k : string) : outcome json :=
  match v with
  | JObj l =>
      match Json.assoc k l with
      | Some x => Done x
      | None => Failed (Raised (KeyError k))
      end
  | _ => Failed TypeError
  end.

(** [len(v)] *)
Definition len (v : json) : outcome nat :=
  match v with
  | JObj l => Done (length l)
  | JArr l => Done (length l)
  | JStr s => Done (String.length s)
  | _ => Failed TypeError
  end.

Fixpoint chars_of (s : string) : list json :=
  match s with
  | EmptyString => []
  | String c s' => JStr (String c EmptyString) :: chars_of s'
  end.

(** What [for x in v] ranges over: the keys of a dict, the elements of a
    list, the characters of a string. *)
Definition iter (v : json) : outcome (list json) :=
  match v with
  | JObj l => Done (map (λ kv, JStr (fst kv)) l)
  | JArr l => Done l
  | JStr s => Done (chars_of s)
  | _ => Failed TypeError
  end.

End PyVal.

(** The loop of lines 131 and 132: [tool['name']] for each tool. *)
Fixpoint print_names (tools : list json) : outcome unit :=
  match tools with
  | [] => Done tt
  | tool :: rest => PyVal.getitem tool "name";; print_names rest
  end.

(** Lines 129 to 132 of [main]: the listing of the tools found. *)
Definition print_tools (tools_result : json) : outcome unit :=
  if negb (Json.truthy tools_result) then Done tt else
  has_result ← PyVal.contains "result" tools_result;
  if negb has_result then Done tt else
  r ← PyVal.getitem tools_result "result";
  has_tools ← PyVal.contains "tools" r;
  if negb has_tools then Done tt else
  r ← PyVal.getitem tools_result "result";
  tools ← PyVal.getitem r "tools";
  PyVal.len tools;;
  r ← PyVal.getitem tools_result "result";
  tools ← PyVal.getitem r "tools";
  items ← PyVal.iter tools;
  print_names items.

Definition default_base_url : string := "http://127.0.0.1:8080".

(** [sys.argv[1] if len(sys.argv) > 1 else "http://127.0.0.1:8080"] *)
Definition base_of (argv : list string) : string :=
  match argv with
  | _ :: a :: _ => a
  | _ => default_base_url
  end.

(** The calls the driver makes, in order. *)
Definition driver_calls : list call :=
  [Initialize; ListTools; CallTool "check_dependencies" JNull;
   CallTool "list_supported_sites" JNull].

Section Driver.

Variable json_loads : string → option json.
Variable server : list Exchange → Post → result Response.

(** The body of the [try] of [main]: [None] when it runs to its end,
    the exception when one is raised. *)
Definition main_try (st : State) : option driver_exn * State :=
  match initialize json_loads server st with
  | (Raise e, st1) => (Some (Raised e), st1)
  | (Ok _, st1) =>
      match list_tools json_loads server st1 with
      | (Raise e, st2) => (Some (Raised e), st2)
      | (Ok tools_result, st2) =>
          match print_tools tools_result with
          | Failed e => (Some e, st2)
          | Done _ =>
              match call_tool json_loads server "check_dependencies" JNull st2
              with
              | (Raise e, st3) => (Some (Raised e), st3)
              | (Ok _, st3) =>
                  match call_tool json_loads server "list_supported_sites"
                          JNull st3
                  with
                  | (Raise e, st4) => (Some (Raised e), st4)
                  | (Ok _, st4) => (None, st4)
                  end
              end
          end
      end
  end.

(** [main]: the exit status of the process, and the client and the wire
    as they are left.  [except Exception] ends in [sys.exit(1)]. *)
Definition main (argv : list string) : Z * State :=
  match main_try (mkState (__init__ (base_of argv)) []) with
  | (None, st) => (0, st)
  | (Some _, st) => (1, st)
  end.

End Driver.

(** ** Further readings of the wire *)

(** A message posted to [ep] in the fixed framing: the two headers and
    the protocol version. *)
Definition well_framed (ep : string) (x : Exchange) : Prop :=
  url (sent x) = ep
  ∧ post_headers (sent x) !! "Content-Type" = Some "application/json"
  ∧ post_headers (sent x) !! "Accept"
    = Some "application/json, text/event-stream"
  ∧ Json.member "jsonrpc" (body (sent x)) = Some (JStr "2.0").

(** The method named in the envelope of a message. *)
Definition method_of (x : Exchange) : option json :=
  Json.member "method" (body (sent x)).

Fixpoint all_space (s : string) : bool :=
  match s with
  | EmptyString => true
  | String c s' => PyStr.isspace c && all_space s'
  end.

Definition is_notification_call (c : call) : bool :=
  match c with
  | SendNotification _ _ => true
  | _ => false
  end.


Module MoreSamples.

Definition error_body : string :=
  RefJson.q "{'jsonrpc':'2.0','id':1,'error':{'code':-32601,'message':'no'}}".

(** A peer that answers everything with a JSON-RPC error object. *)
Definition refusing : list Exchange → Post → result Response :=
  λ _ _, Ok (Samples.response None Samples.json_type error_body).

(** A peer that cannot be reached. *)
Definition unreachable : list Exchange → Post → result Response :=
  λ _ _, Raise (RequestException "connection refused").

(** A peer that is reached once and not again. *)
Definition reached_once : list Exchange → Post → result Response :=
  λ w _, match w with
         | [] => Ok (Samples.response (Some "abc") Samples.json_type
                       Samples.ok_body)
         | _ => Raise (RequestException "connection reset")
         end.

Definition tools_list_body : string :=
  RefJson.q "{'jsonrpc':'2.0','id':2,'result':{'tools':[{'name':'a'},{'name':'b'}]}}".

(** A peer with two tools. *)
Definition listing : list Exchange → Post → result Response :=
  λ _ _, Ok (Samples.response (Some "abc") Samples.json_type tools_list_body).

End MoreSamples.

(** ** Further statements and samples *)

(** "If a response supplies the session header with an empty-string
    value, the client stores the empty string as its held token, yet
    every subsequent request and notification omits the session header
    entirely, until a later response supplies a non-empty token", said of
    any response. *)
Definition empty_token_always_omitted : Prop :=
  ∀ (json_loads : string → option json)
    (server : list Exchange → Post → result Response)
    (base : string) (cs : list call)
    (pre : list Exchange) (e : Exchange) (mid post : list Exchange),
    wire (run_calls json_loads server cs (fresh base))
      = pre ++ e :: mid ++ post →
    supplied e = Some "" →
    Forall (keeps "") mid →
    (post = [] →
     session_id (client (run_calls json_loads server cs (fresh base)))
     = Some "")
    ∧ (∀ (e' : Exchange) (post' : list Exchange),
         post = e' :: post' →
         post_headers (sent e') !! session_header = None).

Module SessionSamples.

(** A peer that names the session [abc] in its first response, by the
    empty string in its second, and not at all afterwards. *)
Definition named_then_empty : list Exchange → Post → result Response :=
  λ w _,
    Ok (Samples.response
          (match w with
           | [] => Some "abc"
           | [_] => Some ""
           | _ => None
           end)
          Samples.json_type Samples.ok_body).

(** A request, a notification and a request to that peer: the empty
    string comes in the response to the notification. *)
Definition notified_wire : list Exchange :=
  wire (run_calls RefJson.loads named_then_empty
          [ListTools; SendNotification "notifications/initialized" JNull;
           ListTools]
          (fresh "http://h")).

End SessionSamples.

(** What the [j]-th call of the driver returns or raises when it is made
    after the calls before it. *)
Definition call_result
    (json_loads : string → option json)
    (server : list Exchange → Post → result Response)
    (argv : list string) (j : nat) : option (result json) :=
  match driver_calls !! j with
  | Some c =>
      Some (fst (run_call json_loads server c
                   (run_calls json_loads server (firstn j driver_calls)
                      (fresh (base_of argv)))))
  | None => None
  end.

(** * Verification *)

(** ** The methods, run *)

Section Methods.

Variable json_loads : string → option json.
Variable server : list Exchange → Post → result Response.

Lemma is_request_request_post c m p : is_request (request_post c m p) = true.
Proof. reflexivity. Qed.

Lemma is_request_notification_post c m p :
  is_request (notification_post c m p) = false.
Proof. reflexivity. Qed.

Lemma request_id_request_post c m p :
  request_id (request_post c m p) = Some (JInt (message_id c + 1)).
Proof. reflexivity. Qed.

Lemma carried_request_headers c :
  request_headers c !! session_header = attached (session_id c).
Proof.
  unfold request_headers, attached.
  destruct (session_id c) as [[|a t]|]; simpl; [reflexivity| |reflexivity].
  apply lookup_insert_eq.
Qed.

Lemma capture_request p r h :
  is_request p = true →
  capture h (mkExchange p r)
  = match r with
    | Ok resp => match CID.get session_header (headers resp) with
                 | Some t => Some t
                 | None => h
                 end
    | Raise _ => h
    end.
Proof.
  intros Hp. unfold capture, supplied. simpl. rewrite Hp.
  destruct r; reflexivity.
Qed.

Lemma capture_notification p r h :
  is_request p = false → capture h (mkExchange p r) = h.
Proof. intros Hp. unfold capture. simpl. rewrite Hp. reflexivity. Qed.

(** [_send_request] in one step: the message posted, the token captured
    from the response, the counter advanced, the body decoded. *)
Lemma _send_request_run m p st :
  _send_request json_loads server m p st
  = let c := client st in
    let x := mkExchange (request_post c m p)
                        (server (wire st) (request_post c m p)) in
    (match reply x with
     | Ok resp => decode json_loads resp
     | Raise e => Raise e
     end,
     mkState (mkClient (base_url c) (endpoint c)
                       (capture (session_id c) x) (message_id c + 1))
             (wire st ++ [x])).
Proof.
  destruct st as [[b ep h n] w].
  unfold _send_request, _next_id, requests_post, self, set_message_id, lift,
    mbind, M_bind, mret, M_ret, request_post. simpl.
  destruct (server w _) as [resp|e] eqn:Hr; [|reflexivity].
  rewrite capture_request by reflexivity.
  unfold CID.contains, headers_getitem, CID.get, set_session_id, raise.
  destruct (headers resp !! PyStr.lower session_header) as [[k v]|] eqn:Hh;
    simpl; reflexivity.
Qed.

(** [_send_notification] in one step: the client is left as it was. *)
Lemma _send_notification_run m p st :
  _send_notification server m p st
  = let x := mkExchange (notification_post (client st) m p)
                        (server (wire st) (notification_post (client st) m p)) in
    (match reply x with
     | Ok _ => Ok tt
     | Raise e => Raise e
     end,
     mkState (client st) (wire st ++ [x])).
Proof.
  unfold _send_notification, requests_post, self, mbind, M_bind, mret, M_ret,
    notification_post. simpl.
  destruct (server (wire st) _); reflexivity.
Qed.

End Methods.

(** ** The protocol invariant of the wire *)

Lemma held_after_app w1 w2 h :
  held_after (w1 ++ w2) h = held_after w2 (held_after w1 h).
Proof. apply fold_left_app. Qed.

Lemma request_ids_app w1 w2 :
  request_ids (w1 ++ w2) = request_ids w1 ++ request_ids w2.
Proof. apply omap_app. Qed.

Lemma request_ids_cons x w :
  request_ids (x :: w)
  = match request_id (sent x) with
    | Some i => i :: request_ids w
    | None => request_ids w
    end.
Proof. reflexivity. Qed.

Lemma is_request_false p : is_request p = false → request_id p = None.
Proof.
  unfold is_request. intros H. apply bool_decide_eq_false in H.
  destruct (request_id p); [|reflexivity]. exfalso. apply H. eauto.
Qed.

Lemma ids_from_S n k : ids_from n (S k) = JInt (n + 1) :: ids_from (n + 1) k.
Proof.
  unfold ids_from. simpl. f_equal.
  rewrite <- seq_shift, map_map. apply map_ext.
  intros i. f_equal. lia.
Qed.

Lemma count_step x w :
  Z.of_nat (length (request_ids (x :: w)))
  = (if is_request (sent x) then 1 else 0) + Z.of_nat (length (request_ids w)).
Proof.
  rewrite request_ids_cons. unfold is_request.
  destruct (request_id (sent x)); simpl length; [|reflexivity].
  rewrite bool_decide_eq_true_2 by eauto. lia.
Qed.

Lemma follows_app h n w1 w2 :
  follows h n (w1 ++ w2)
  ↔ follows h n w1
    ∧ follows (held_after w1 h) (n + Z.of_nat (length (request_ids w1))) w2.
Proof.
  revert h n. induction w1 as [|x w1 IH]; intros h n.
  - simpl. replace (n + Z.of_nat 0) with n by lia. tauto.
  - change ((x :: w1) ++ w2) with (x :: (w1 ++ w2)).
    cbn [follows]. rewrite IH. rewrite count_step.
    change (held_after (x :: w1) h) with (held_after w1 (capture h x)).
    destruct (is_request (sent x)).
    + replace (n + (1 + Z.of_nat (length (request_ids w1))))
        with (n + 1 + Z.of_nat (length (request_ids w1))) by lia.
      tauto.
    + replace (n + (0 + Z.of_nat (length (request_ids w1))))
        with (n + Z.of_nat (length (request_ids w1))) by lia.
      tauto.
Qed.

(** On a wire that follows the protocol the request ids count up. *)
Lemma follows_ids h n w :
  follows h n w → request_ids w = ids_from n (length (request_ids w)).
Proof.
  revert h n. induction w as [|x w IH]; intros h n Hf; [reflexivity|].
  destruct Hf as (_ & Hid & Hw).
  rewrite request_ids_cons.
  destruct (is_request (sent x)) eqn:Hx.
  - rewrite Hid. simpl length. rewrite ids_from_S. f_equal. eauto.
  - rewrite (is_request_false _ Hx). eauto.
Qed.

(** On a wire that follows the protocol every message carries the token
    held when it was posted. *)
Lemma follows_carried h n pre x post :
  follows h n (pre ++ x :: post) →
  carried (sent x) = attached (held_after pre h).
Proof.
  intros Hf. apply follows_app in Hf as (_ & Hx & _). exact Hx.
Qed.

Lemma held_after_keeps t w :
  Forall (request_keeps t) w → held_after w (Some t) = Some t.
Proof.
  induction 1 as [|x w Hx _ IH]; [reflexivity|].
  change (held_after (x :: w) (Some t)) with (held_after w (capture (Some t) x)).
  replace (capture (Some t) x) with (Some t); [exact IH|].
  unfold capture. unfold request_keeps in Hx.
  destruct (is_request (sent x)); [|reflexivity].
  destruct (Hx eq_refl) as [-> | ->]; reflexivity.
Qed.

Lemma held_after_is_Some w h : is_Some h → is_Some (held_after w h).
Proof.
  revert h. induction w as [|x w IH]; intros h Hh; [exact Hh|].
  apply IH. unfold capture.
  destruct (is_request (sent x)); [|exact Hh].
  destruct (supplied x); eauto.
Qed.

Section Invariant.

Variable json_loads : string → option json.
Variable server : list Exchange → Post → result Response.

Lemma extends_refl st : extends st st 0.
Proof.
  exists []. rewrite app_nil_r. simpl. repeat split; try reflexivity. lia.
Qed.

Lemma extends_trans st1 st2 st3 j k :
  extends st1 st2 j → extends st2 st3 k → extends st1 st3 (j + k).
Proof.
  intros (w1 & Hw1 & Hf1 & Hs1 & Hm1 & Hc1) (w2 & Hw2 & Hf2 & Hs2 & Hm2 & Hc2).
  exists (w1 ++ w2). repeat split.
  - rewrite Hw2, Hw1, <- app_assoc. reflexivity.
  - apply follows_app. split; [exact Hf1|].
    rewrite <- Hs1, Hc1, <- Hm1. exact Hf2.
  - rewrite held_after_app, <- Hs1. exact Hs2.
  - rewrite Hm2, Hm1. lia.
  - rewrite request_ids_app, length_app. lia.
Qed.

Lemma _send_request_extends m p st :
  extends st (snd (_send_request json_loads server m p st)) 1.
Proof.
  rewrite _send_request_run. cbn zeta. cbn [snd].
  eexists [_]. cbn [wire client session_id message_id].
  split; [reflexivity|].
  split; [|split; [reflexivity|split; [reflexivity|reflexivity]]].
  cbn [follows sent]. rewrite is_request_request_post.
  split; [apply carried_request_headers|].
  split; [reflexivity|exact I].
Qed.

Lemma _send_notification_extends m p st :
  extends st (snd (_send_notification server m p st)) 0.
Proof.
  rewrite _send_notification_run. cbn zeta. cbn [snd].
  eexists [_]. cbn [wire client].
  split; [reflexivity|].
  split; [|split; [reflexivity|split; [lia|reflexivity]]].
  cbn [follows sent]. rewrite is_request_notification_post.
  split; [apply carried_request_headers|].
  split; exact I.
Qed.

Lemma initialize_extends st :
  extends st (snd (initialize json_loads server st)) 1.
Proof.
  unfold initialize, mbind, M_bind, mret, M_ret.
  pose proof (_send_request_extends "initialize" initialize_params st) as H1.
  destruct (_send_request json_loads server "initialize" initialize_params st)
    as [[v|e] st1]; [|exact H1].
  pose proof (_send_notification_extends "notifications/initialized" JNull st1)
    as H2.
  destruct (_send_notification server "notifications/initialized" JNull st1)
    as [[[]|e] st2]; exact (extends_trans _ _ _ 1 0 H1 H2).
Qed.

Lemma run_call_extends c st :
  extends st (snd (run_call json_loads server c st)) (requests_of c).
Proof.
  destruct c as [m p|m p| | |n a]; simpl requests_of.
  - apply _send_request_extends.
  - unfold run_call, mbind, M_bind, mret, M_ret.
    pose proof (_send_notification_extends m p st) as H.
    destruct (_send_notification server m p st) as [[[]|e] st1]; exact H.
  - apply initialize_extends.
  - apply _send_request_extends.
  - apply _send_request_extends.
Qed.

Lemma run_calls_extends cs st :
  extends st (run_calls json_loads server cs st) (count_requests cs).
Proof.
  revert st. induction cs as [|c cs IH]; intros st.
  - apply extends_refl.
  - simpl. eapply extends_trans; [apply run_call_extends|apply IH].
Qed.

End Invariant.

(** ** Identifier allocation *)

Lemma ids_from_zero k :
  ids_from 0 k = map (λ i, JInt (Z.of_nat i)) (seq 1 k).
Proof. reflexivity. Qed.

Lemma ids_NoDup k : NoDup (map (λ i, JInt (Z.of_nat i)) (seq 1 k)).
Proof.
  apply NoDup_fmap_2; [|apply NoDup_ListNoDup, seq_NoDup].
  intros i j Hij. injection Hij as Hij. lia.
Qed.

(** C1. On one client object, however the calls are interleaved and
    whatever the peer answers, the ids in the request envelopes are
    1, 2, ..., N in call order, N being the number of [_send_request]
    calls made, with no repeats, and the counter ends at N.  A
    [_send_notification] call leaves the counter as it was and posts one
    message whose payload has no [id] member. *)
Theorem request_ids_count_up
    (json_loads : string → option json)
    (server : list Exchange → Post → result Response)
    (base : string) (cs : list call) :
  request_ids (wire (run_calls json_loads server cs (fresh base)))
    = map (λ i, JInt (Z.of_nat i)) (seq 1 (count_requests cs))
  ∧ NoDup (request_ids (wire (run_calls json_loads server cs (fresh base))))
  ∧ message_id (client (run_calls json_loads server cs (fresh base)))
    = Z.of_nat (count_requests cs)
  ∧ ∀ (st : State) (m : string) (p : json),
      message_id (client (snd (_send_notification server m p st)))
        = message_id (client st)
      ∧ ∃ x : Exchange,
          wire (snd (_send_notification server m p st)) = wire st ++ [x]
          ∧ Json.member "id" (body (sent x)) = None.
Proof.
  destruct (run_calls_extends json_loads server cs (fresh base))
    as (w & Hw & Hf & _ & Hm & Hc).
  simpl in Hw, Hf, Hm. rewrite Hw.
  assert (Hids : request_ids w
                 = map (λ i, JInt (Z.of_nat i)) (seq 1 (count_requests cs))).
  { rewrite (follows_ids _ _ _ Hf), Hc. apply ids_from_zero. }
  split; [exact Hids|].
  split; [rewrite Hids; apply ids_NoDup|].
  split; [rewrite Hm; lia|].
  intros st m p. rewrite _send_notification_run. cbn zeta. cbn [snd client wire].
  split; [reflexivity|]. eexists. split; reflexivity.
Qed.

(** ** Calls before [initialize] *)

(** C9. On a client fresh from the constructor, [call_tool] posts one
    message to the endpoint: the [tools/call] envelope with id 1 and the
    params [{name, arguments}], under the two fixed headers and no
    session header.  Nothing requires [initialize] to have run. *)
Theorem call_tool_on_fresh_client
    (json_loads : string → option json)
    (server : list Exchange → Post → result Response)
    (base name : string) (arguments : json) :
  ∃ p : Post,
    wire (snd (call_tool json_loads server name arguments (fresh base)))
      = [mkExchange p (server [] p)]
    ∧ url p = base +:+ "/mcp"
    ∧ body p
      = JObj [("jsonrpc", JStr "2.0"); ("id", JInt 1);
              ("method", JStr "tools/call");
              ("params",
               JObj [("name", JStr name);
                     ("arguments", Json.or_else arguments (JObj []))])]
    ∧ post_headers p
      = <["Accept" := "application/json, text/event-stream"]>
          {["Content-Type" := "application/json"]}
    ∧ post_headers p !! session_header = None.
Proof.
  unfold call_tool. rewrite _send_request_run. cbn zeta. cbn [snd wire].
  eexists. split; [reflexivity|]. repeat split; reflexivity.
Qed.

(** ** Decoding *)

(** C5. A response whose content type is [application/json] and whose
    body parses decodes to the parsed document itself, and that is what
    [_send_request] returns to its caller. *)
Theorem decode_plain_json
    (json_loads : string → option json) (r : Response) (doc : json) :
  CID.get "Content-Type" (headers r) = Some "application/json" →
  json_loads (text r) = Some doc →
  decode json_loads r = Ok doc
  ∧ ∀ (server : list Exchange → Post → result Response)
      (st : State) (m : string) (p : json),
      server (wire st) (request_post (client st) m p) = Ok r →
      fst (_send_request json_loads server m p st) = Ok doc.
Proof.
  intros Hct Hdoc.
  assert (Hd : decode json_loads r = Ok doc).
  { unfold decode, loads. rewrite Hct, Hdoc. reflexivity. }
  split; [exact Hd|].
  intros server st m p Hr. rewrite _send_request_run. cbn zeta. cbn [fst reply].
  rewrite Hr. exact Hd.
Qed.

Lemma decode_plain_json_witness :
  decode RefJson.loads
    (Samples.response None Samples.json_type Samples.ok_body)
  = Ok (JObj [("jsonrpc", JStr "2.0"); ("id", JInt 1);
              ("result", JObj [("ok", JBool true)])]).
Proof.
  apply (decode_plain_json RefJson.loads
           (Samples.response None Samples.json_type Samples.ok_body)).
  - reflexivity.
  - reflexivity.
Defined.

(** C7. A response whose content type is not [text/event-stream], a
    missing one included, is decoded by parsing the whole body as one
    document; when the body does not parse, the [JSONDecodeError] is what
    [_send_request] raises to its caller. *)
Theorem decode_other_content_type
    (json_loads : string → option json) (r : Response) :
  CID.get "Content-Type" (headers r) ≠ Some "text/event-stream" →
  decode json_loads r
    = match json_loads (text r) with
      | Some doc => Ok doc
      | None => Raise JSONDecodeError
      end
  ∧ ∀ (server : list Exchange → Post → result Response)
      (st : State) (m : string) (p : json),
      server (wire st) (request_post (client st) m p) = Ok r →
      fst (_send_request json_loads server m p st)
      = match json_loads (text r) with
        | Some doc => Ok doc
        | None => Raise JSONDecodeError
        end.
Proof.
  intros Hct.
  assert (Hd : decode json_loads r
               = match json_loads (text r) with
                 | Some doc => Ok doc
                 | None => Raise JSONDecodeError
                 end).
  { unfold decode, loads. rewrite bool_decide_eq_false_2 by exact Hct.
    destruct (json_loads (text r)); reflexivity. }
  split; [exact Hd|].
  intros server st m p Hr. rewrite _send_request_run. cbn zeta. cbn [fst reply].
  rewrite Hr. exact Hd.
Qed.

Lemma decode_other_content_type_witness :
  CID.get "Content-Type" (headers Samples.not_json) = None
  ∧ decode RefJson.loads Samples.not_json = Raise JSONDecodeError
  ∧ fst (_send_request RefJson.loads (λ _ _, Ok Samples.not_json)
           "tools/list" JNull (fresh "http://h"))
    = Raise JSONDecodeError.
Proof.
  split; [reflexivity|].
  assert (H : CID.get "Content-Type" (headers Samples.not_json)
              ≠ Some "text/event-stream") by (vm_compute; discriminate).
  destruct (decode_other_content_type RefJson.loads Samples.not_json H)
    as [Hd Hs].
  split; [exact Hd|].
  apply (Hs (λ _ _, Ok Samples.not_json) (fresh "http://h") "tools/list" JNull).
  reflexivity.
Defined.

(** ** Notifications *)

(** C8. Whatever response comes back to a notification (empty body,
    body that is no JSON, any headers), [_send_notification] returns
    nothing and raises nothing, and the client object is left as it was:
    the response is recorded on the wire and never read. *)
Theorem notification_discards_response
    (server : list Exchange → Post → result Response)
    (st : State) (m : string) (p : json) (r : Response) :
  server (wire st) (notification_post (client st) m p) = Ok r →
  _send_notification server m p st
  = (Ok tt,
     mkState (client st)
       (wire st ++ [mkExchange (notification_post (client st) m p) (Ok r)])).
Proof.
  intros Hr. rewrite _send_notification_run. cbn zeta. cbn [reply].
  rewrite Hr. reflexivity.
Qed.

Lemma notification_discards_response_witness :
  fst (_send_notification (λ _ _, Ok Samples.not_json)
         "notifications/initialized" JNull (Samples.client_at None 1))
  = Ok tt
  ∧ client (snd (_send_notification (λ _ _, Ok Samples.not_json)
         "notifications/initialized" JNull (Samples.client_at None 1)))
  = client (Samples.client_at None 1).
Proof.
  rewrite (notification_discards_response (λ _ _, Ok Samples.not_json)
             (Samples.client_at None 1) "notifications/initialized" JNull
             Samples.not_json eq_refl).
  split; reflexivity.
Defined.

(** ** Event streams *)

Section EventStream.

Variable json_loads : string → option json.

Lemma scan_lines_skip pre rest :
  Forall (λ l, is_data_line l = false) pre →
  scan_lines json_loads (pre ++ rest) = scan_lines json_loads rest.
Proof.
  induction 1 as [|l pre Hl _ IH]; [reflexivity|].
  simpl. unfold is_data_line in Hl. rewrite Hl. exact IH.
Qed.

Lemma scan_lines_data line post :
  is_data_line line = true →
  scan_lines json_loads (line :: post)
  = match json_loads (PyStr.slice_from 6 line) with
    | Some doc => Ok doc
    | None => Raise JSONDecodeError
    end.
Proof.
  intros Hl. simpl. unfold is_data_line in Hl. rewrite Hl. unfold loads.
  destruct (json_loads _); reflexivity.
Qed.

Lemma first_parsed_skip pre rest :
  Forall (λ l, is_data_line l = false) pre →
  first_parsed json_loads (pre ++ rest) = first_parsed json_loads rest.
Proof.
  induction 1 as [|l pre Hl _ IH]; [reflexivity|].
  simpl. rewrite Hl. exact IH.
Qed.

Lemma decode_event_stream_scan r :
  event_stream r →
  decode json_loads r
  = scan_lines json_loads (PyStr.split_lines (PyStr.strip (text r))).
Proof.
  intros Hct. unfold decode. rewrite bool_decide_eq_true_2 by exact Hct.
  reflexivity.
Qed.

End EventStream.

(** C3, as the code has it.  In an event-stream body the decoder looks for
    the first line of the stripped text that starts with [data: ] and
    parses what follows the prefix.  If that parses, the document is the
    result (and it is the first parsed document of the specification); if
    it does not, the decoder raises [JSONDecodeError].  Either way no
    later line is read. *)
Theorem decode_event_stream_first_data_line
    (json_loads : string → option json) (r : Response)
    (pre : list string) (line : string) (post : list string) :
  event_stream r →
  PyStr.split_lines (PyStr.strip (text r)) = pre ++ line :: post →
  Forall (λ l, is_data_line l = false) pre →
  is_data_line line = true →
  decode json_loads r
    = match json_loads (PyStr.slice_from 6 line) with
      | Some doc => Ok doc
      | None => Raise JSONDecodeError
      end
  ∧ (is_Some (json_loads (PyStr.slice_from 6 line)) →
     decode json_loads r
     = Ok (first_parsed json_loads
             (PyStr.split_lines (PyStr.strip (text r))))).
Proof.
  intros Hct Hlines Hpre Hline.
  rewrite (decode_event_stream_scan _ _ Hct), Hlines.
  rewrite (scan_lines_skip _ _ _ Hpre), (first_parsed_skip _ _ _ Hpre).
  rewrite (scan_lines_data _ _ _ Hline).
  split; [reflexivity|].
  intros [doc Hdoc]. cbn [first_parsed]. rewrite Hline, Hdoc. reflexivity.
Qed.

Lemma decode_event_stream_first_data_line_witness :
  decode RefJson.loads Samples.bad_then_good = Raise JSONDecodeError.
Proof.
  apply (decode_event_stream_first_data_line RefJson.loads
           Samples.bad_then_good [] "data: oops" ["data: 1"]).
  - reflexivity.
  - reflexivity.
  - constructor.
  - reflexivity.
Defined.

(** The statement of the specification fails on a body whose first
    [data: ] line does not parse and whose second does: the decoder
    raises, where the specification has it return the second. *)
Lemma first_parsed_returned_fails : ¬ first_parsed_returned.
Proof.
  intros H.
  specialize (H RefJson.loads Samples.bad_then_good eq_refl).
  vm_compute in H. discriminate H.
Qed.

(** C6, as the code has it.  When no line of the stripped text of an
    event-stream body starts with [data: ], the decoder returns [None]
    and raises nothing. *)
Theorem decode_no_data_line
    (json_loads : string → option json) (r : Response) :
  event_stream r →
  Forall (λ l, is_data_line l = false)
         (PyStr.split_lines (PyStr.strip (text r))) →
  decode json_loads r = Ok JNull.
Proof.
  intros Hct Hnone. rewrite (decode_event_stream_scan _ _ Hct).
  rewrite <- (app_nil_r (PyStr.split_lines _)).
  rewrite (scan_lines_skip _ _ _ Hnone). reflexivity.
Qed.

Lemma decode_no_data_line_witness :
  decode RefJson.loads Samples.framing_only = Ok JNull.
Proof.
  apply (decode_no_data_line RefJson.loads Samples.framing_only).
  - reflexivity.
  - vm_compute. repeat constructor.
Defined.

(** The statement of the specification fails on a body whose only line
    is [data: 1] behind a blank: that line does not start with the
    prefix, yet the text is stripped before it is split and the decoder
    returns 1. *)
Lemma no_data_line_no_message_fails : ¬ no_data_line_no_message.
Proof.
  intros H.
  specialize (H RefJson.loads Samples.indented eq_refl).
  assert (Hlines : Forall (λ line, is_data_line line = false)
                          (PyStr.split_lines (text Samples.indented))).
  { vm_compute. repeat constructor. }
  specialize (H Hlines). vm_compute in H. discriminate H.
Qed.

(** ** The session token *)

Section Session.

Variable json_loads : string → option json.
Variable server : list Exchange → Post → result Response.
Variable base : string.
Variable cs : list call.

Lemma wire_follows :
  follows None 0 (wire (run_calls json_loads server cs (fresh base))).
Proof.
  destruct (run_calls_extends json_loads server cs (fresh base))
    as (w & Hw & Hf & _). simpl in Hw, Hf. rewrite Hw. exact Hf.
Qed.

Lemma client_holds :
  session_id (client (run_calls json_loads server cs (fresh base)))
  = held_after (wire (run_calls json_loads server cs (fresh base))) None.
Proof.
  destruct (run_calls_extends json_loads server cs (fresh base))
    as (w & Hw & _ & Hs & _). simpl in Hw, Hs. rewrite Hw. exact Hs.
Qed.

(** The token held once the response of the request [e] has supplied
    [t] and the responses [mid] have supplied no other. *)
Lemma held_after_supplied pre e mid t :
  is_request (sent e) = true →
  supplied e = Some t →
  Forall (request_keeps t) mid →
  held_after (pre ++ e :: mid) None = Some t.
Proof.
  intros He Ht Hmid. rewrite held_after_app.
  change (held_after (e :: mid) ?h) with (held_after mid (capture h e)).
  unfold capture at 1. rewrite He, Ht. apply held_after_keeps, Hmid.
Qed.

End Session.

(** C2, as the code has it.  Once the response to a request has supplied
    a token that is not the empty string, every message posted after it,
    request or notification, carries exactly that token, up to and
    including the first request whose response supplies another.  From
    then on the client always holds a token: the one it holds at the end
    is the one supplied last to a request. *)
Theorem session_token_carried
    (json_loads : string → option json)
    (server : list Exchange → Post → result Response)
    (base : string) (cs : list call)
    (pre : list Exchange) (e : Exchange) (mid : list Exchange)
    (e' : Exchange) (post : list Exchange) (t : string) :
  wire (run_calls json_loads server cs (fresh base))
    = pre ++ e :: mid ++ e' :: post →
  is_request (sent e) = true →
  supplied e = Some t →
  t ≠ "" →
  Forall (request_keeps t) mid →
  carried (sent e') = Some t
  ∧ is_Some (session_id (client (run_calls json_loads server cs (fresh base))))
  ∧ session_id (client (run_calls json_loads server cs (fresh base)))
    = held_after (e' :: post) (Some t).
Proof.
  intros Hw He Ht Hne Hmid.
  pose proof (wire_follows json_loads server base cs) as Hf.
  pose proof (client_holds json_loads server base cs) as Hs.
  rewrite Hw in Hf, Hs.
  replace (pre ++ e :: mid ++ e' :: post)
    with ((pre ++ e :: mid) ++ e' :: post) in Hf, Hs
    by (rewrite <- app_assoc; reflexivity).
  apply follows_carried in Hf.
  rewrite held_after_app in Hs.
  rewrite (held_after_supplied pre e mid t He Ht Hmid) in Hf, Hs.
  split; [|split; [|exact Hs]].
  - rewrite Hf. destruct t; [contradiction|reflexivity].
  - rewrite Hs. apply held_after_is_Some. eauto.
Qed.

Lemma session_token_carried_witness :
  carried (sent (nth 2 Samples.named_wire Samples.nothing)) = Some "abc".
Proof.
  apply (session_token_carried RefJson.loads (Samples.naming "abc")
           "http://h" [Initialize; ListTools]
           [] (nth 0 Samples.named_wire Samples.nothing)
           [nth 1 Samples.named_wire Samples.nothing]
           (nth 2 Samples.named_wire Samples.nothing) [] "abc").
  - vm_compute. reflexivity.
  - reflexivity.
  - reflexivity.
  - discriminate.
  - constructor; [|constructor].
    intros _. right. reflexivity.
Defined.

(** The statement of the specification fails for a peer that names the
    session by the empty string: the second request carries no session
    header, though the response to the first supplied one. *)
Lemma token_always_carried_fails : ¬ token_always_carried.
Proof.
  intros H.
  specialize (H RefJson.loads (Samples.naming "") "http://h"
                [ListTools; ListTools]
                [] (nth 0 Samples.unnamed_wire Samples.nothing) []
                (nth 1 Samples.unnamed_wire Samples.nothing) [] "").
  assert (Hc : carried (sent (nth 1 Samples.unnamed_wire Samples.nothing))
               = Some "").
  { apply H.
    - vm_compute. reflexivity.
    - reflexivity.
    - constructor. }
  vm_compute in Hc. discriminate Hc.
Qed.

(** C10, as the code has it.  When the response to a request supplies
    the session header with the empty string as its value, the client
    holds the empty string, and every message posted after it, request or
    notification, has no session header, up to and including the first
    request whose response supplies a token that is not empty.  The
    responses to notifications are not read and change nothing. *)
Theorem empty_token_held_not_attached
    (json_loads : string → option json)
    (server : list Exchange → Post → result Response)
    (base : string) (cs : list call)
    (pre : list Exchange) (e : Exchange) (mid post : list Exchange) :
  wire (run_calls json_loads server cs (fresh base))
    = pre ++ e :: mid ++ post →
  is_request (sent e) = true →
  supplied e = Some "" →
  Forall (request_keeps "") mid →
  (post = [] →
   session_id (client (run_calls json_loads server cs (fresh base)))
   = Some "")
  ∧ (∀ (e' : Exchange) (post' : list Exchange),
       post = e' :: post' → post_headers (sent e') !! session_header = None).
Proof.
  intros Hw He Ht Hmid.
  pose proof (wire_follows json_loads server base cs) as Hf.
  pose proof (client_holds json_loads server base cs) as Hs.
  rewrite Hw in Hf, Hs.
  replace (pre ++ e :: mid ++ post)
    with ((pre ++ e :: mid) ++ post) in Hf, Hs
    by (rewrite <- app_assoc; reflexivity).
  split.
  - intros ->. rewrite app_nil_r in Hs. rewrite Hs.
    apply held_after_supplied; assumption.
  - intros e' post' ->. apply follows_carried in Hf.
    rewrite (held_after_supplied pre e mid "" He Ht Hmid) in Hf. exact Hf.
Qed.

Lemma empty_token_held_not_attached_witness :
  session_id (client (run_calls RefJson.loads (Samples.naming "")
                        [ListTools; ListTools] (fresh "http://h")))
  = Some ""
  ∧ post_headers (sent (nth 1 Samples.unnamed_wire Samples.nothing))
    !! session_header = None.
Proof.
  split.
  - apply (empty_token_held_not_attached RefJson.loads (Samples.naming "")
             "http://h" [ListTools; ListTools]
             [nth 0 Samples.unnamed_wire Samples.nothing]
             (nth 1 Samples.unnamed_wire Samples.nothing) [] []).
    + vm_compute. reflexivity.
    + reflexivity.
    + reflexivity.
    + constructor.
    + reflexivity.
  - apply (empty_token_held_not_attached RefJson.loads (Samples.naming "")
             "http://h" [ListTools; ListTools]
             [] (nth 0 Samples.unnamed_wire Samples.nothing) []
             [nth 1 Samples.unnamed_wire Samples.nothing]
           ) with (post' := []).
    + vm_compute. reflexivity.
    + reflexivity.
    + reflexivity.
    + constructor.
    + reflexivity.
Defined.

(** The statement fails when the empty string comes in the response to
    a notification: the client goes on holding the token it had, and the
    next request carries it. *)
Lemma empty_token_always_omitted_fails : ¬ empty_token_always_omitted.
Proof.
  intros H.
  destruct (H RefJson.loads SessionSamples.named_then_empty "http://h"
              [ListTools; SendNotification "notifications/initialized" JNull;
               ListTools]
              [nth 0 SessionSamples.notified_wire Samples.nothing]
              (nth 1 SessionSamples.notified_wire Samples.nothing) []
              [nth 2 SessionSamples.notified_wire Samples.nothing])
    as [_ Hc].
  - vm_compute. reflexivity.
  - reflexivity.
  - constructor.
  - specialize (Hc (nth 2 SessionSamples.notified_wire Samples.nothing) []
                   eq_refl).
    vm_compute in Hc. discriminate Hc.
Qed.

(** ** The handshake *)

(** X4. When the request of [initialize] raises, whether in the transport
    or in the decoding, [initialize] raises the same exception and the
    [initialized] notification is not posted. *)
Lemma initialize_request_raises
    (json_loads : string → option json)
    (server : list Exchange → Post → result Response)
    (st : State) (x : exn) :
  fst (_send_request json_loads server "initialize" initialize_params st)
    = Raise x →
  fst (initialize json_loads server st) = Raise x
  ∧ wire (snd (initialize json_loads server st))
    = wire st
      ++ [mkExchange
            (request_post (client st) "initialize" initialize_params)
            (server (wire st)
               (request_post (client st) "initialize" initialize_params))].
Proof.
  intros Hx. unfold initialize, mbind, M_bind.
  pose proof (_send_request_run json_loads server
                "initialize" initialize_params st) as Hrun.
  destruct (_send_request json_loads server "initialize" initialize_params st)
    as [[v|y] st1]; simpl in Hx; [discriminate Hx|].
  injection Hx as ->. cbn zeta in Hrun. injection Hrun as _ ->.
  split; reflexivity.
Qed.

(** C4, as the code has it.  When the initialize request gets the
    response [r] and [r] decodes to [v], [initialize] posts exactly one
    more message, the [notifications/initialized] notification, and posts
    it after [r] has come back: the peer answers it knowing the first
    exchange, and its session header is what the client holds once the
    session header of [r] has been processed, that is the token of [r],
    or the one held before if [r] has none, attached unless it is the
    empty string.  Unless posting the notification raises, [initialize]
    returns [v]. *)
Theorem initialize_handshake
    (json_loads : string → option json)
    (server : list Exchange → Post → result Response)
    (st : State) (r : Response) (v : json) :
  server (wire st) (request_post (client st) "initialize" initialize_params)
    = Ok r →
  decode json_loads r = Ok v →
  ∃ e2 : Exchange,
    wire (snd (initialize json_loads server st))
      = wire st
        ++ [mkExchange
              (request_post (client st) "initialize" initialize_params)
              (Ok r);
            e2]
    ∧ body (sent e2) = notification_payload "notifications/initialized" JNull
    ∧ reply e2
      = server
          (wire st
           ++ [mkExchange
                 (request_post (client st) "initialize" initialize_params)
                 (Ok r)])
          (sent e2)
    ∧ carried (sent e2)
      = attached (match CID.get session_header (headers r) with
                  | Some t => Some t
                  | None => session_id (client st)
                  end)
    ∧ match reply e2 with
      | Ok _ => fst (initialize json_loads server st) = Ok v
      | Raise x => fst (initialize json_loads server st) = Raise x
      end.
Proof.
  intros Hr Hv. unfold initialize, mbind, M_bind, mret, M_ret.
  rewrite _send_request_run. cbn zeta. cbn [reply].
  rewrite Hr, Hv. rewrite _send_notification_run. cbn zeta.
  cbn [client wire reply].
  rewrite capture_request by reflexivity.
  match goal with
  | |- context [server ?w (notification_post ?c ?m ?p)] =>
      exists (mkExchange (notification_post c m p)
                         (server w (notification_post c m p)));
      destruct (server w (notification_post c m p)) as [r2|x2] eqn:Hn
  end;
    (split; [cbn [snd wire]; rewrite <- app_assoc; reflexivity|]);
    (split; [reflexivity|]);
    (split; [cbn [reply sent]; symmetry; exact Hn|]);
    (split; [apply carried_request_headers|reflexivity]).
Qed.

Lemma initialize_handshake_witness :
  ∃ e2 : Exchange,
    nth_error
      (wire (snd (initialize RefJson.loads (Samples.naming "abc")
                    (fresh "http://h")))) 1
    = Some e2
    ∧ carried (sent e2) = Some "abc"
    ∧ fst (initialize RefJson.loads (Samples.naming "abc") (fresh "http://h"))
      = Ok Samples.ok_document.
Proof.
  destruct (initialize_handshake RefJson.loads (Samples.naming "abc")
              (fresh "http://h")
              (Samples.response (Some "abc") Samples.json_type Samples.ok_body)
              Samples.ok_document eq_refl eq_refl)
    as (e2 & Hw & _ & Hrep & Hc & Hres).
  exists e2. split; [|split].
  - rewrite Hw. reflexivity.
  - exact Hc.
  - rewrite Hrep in Hres. exact Hres.
Defined.

(** The statement of the specification fails for a peer that names the
    session by the empty string in its initialize response: the client
    captures the empty string, and the notification has no session
    header. *)
Lemma handshake_carries_captured_fails : ¬ handshake_carries_captured.
Proof.
  intros H.
  destruct (H RefJson.loads (Samples.naming "") (fresh "http://h")
              (Samples.response (Some "") Samples.json_type Samples.ok_body)
              Samples.ok_document "" eq_refl eq_refl eq_refl)
    as (e2 & Hw & Hc & _).
  vm_compute in Hw. injection Hw as <-.
  vm_compute in Hc. discriminate Hc.
Qed.

(** ** The scenarios of the specification *)

Example decode_tools_event :
  decode RefJson.loads
    (Samples.response None Samples.sse_type Samples.tools_body)
  = Ok Samples.tools_document.
Proof. reflexivity. Qed.

Example decode_indented_event :
  decode RefJson.loads Samples.indented = Ok (JInt 1).
Proof. reflexivity. Qed.

Example driver_ids :
  request_ids
    (wire (run_calls RefJson.loads (Samples.naming "abc")
             [Initialize; ListTools; CallTool "check_dependencies" JNull;
              CallTool "list_supported_sites" JNull]
             (fresh "http://127.0.0.1:8080")))
  = [JInt 1; JInt 2; JInt 3; JInt 4].
Proof. reflexivity. Qed.

Example driver_session_headers :
  map (λ e, carried (sent e))
    (wire (run_calls RefJson.loads (Samples.naming_once "abc")
             [Initialize; ListTools; CallTool "check_dependencies" JNull]
             (fresh "http://127.0.0.1:8080")))
  = [None; Some "abc"; Some "abc"; Some "abc"].
Proof. reflexivity. Qed.

(** * Further properties of the client *)

(** ** Parameters *)

(** X1. A [params] argument that Python counts as false ([None], [{}],
    [[]], [0], [''], [False]) is posted as the empty object: the message
    that [_send_request] or [_send_notification] posts has [{}] as its
    [params] member, and the whole call goes as if [{}] had been
    passed. *)
Theorem falsy_params_sent_as_empty_object
    (json_loads : string → option json)
    (server : list Exchange → Post → result Response)
    (m : string) (p : json) (st : State) :
  Json.truthy p = false →
  (∃ x : Exchange,
     wire (snd (_send_request json_loads server m p st)) = wire st ++ [x]
     ∧ Json.member "params" (body (sent x)) = Some (JObj []))
  ∧ (∃ x : Exchange,
       wire (snd (_send_notification server m p st)) = wire st ++ [x]
       ∧ Json.member "params" (body (sent x)) = Some (JObj []))
  ∧ _send_request json_loads server m p st
    = _send_request json_loads server m (JObj []) st
  ∧ _send_notification server m p st
    = _send_notification server m (JObj []) st.
Proof.
  intros Hp.
  assert (Hor : Json.or_else p (JObj []) = JObj []).
  { unfold Json.or_else. rewrite Hp. reflexivity. }
  split; [|split; [|split]].
  - rewrite _send_request_run. cbn zeta. cbn [snd wire].
    eexists. split; [reflexivity|].
    unfold request_post, request_payload. rewrite Hor. reflexivity.
  - rewrite _send_notification_run. cbn zeta. cbn [snd wire].
    eexists. split; [reflexivity|].
    unfold notification_post, notification_payload. rewrite Hor.
    reflexivity.
  - rewrite !_send_request_run. unfold request_post, request_payload.
    rewrite Hor. reflexivity.
  - rewrite !_send_notification_run.
    unfold notification_post, notification_payload.
    rewrite Hor. reflexivity.
Qed.

Lemma falsy_params_sent_as_empty_object_witness :
  Json.member "params"
    (body (sent (nth 0
                   (wire (snd (_send_request RefJson.loads
                                 (Samples.naming "abc") "tools/list"
                                 (JArr []) (fresh "http://h"))))
                   Samples.nothing)))
  = Some (JObj []).
Proof.
  destruct (falsy_params_sent_as_empty_object RefJson.loads
              (Samples.naming "abc") "tools/list" (JArr [])
              (fresh "http://h") eq_refl) as ((x & Hw & Hx) & _).
  rewrite Hw. exact Hx.
Defined.

(** ** Failures of a request *)

(** X2. When [requests.post] raises, [_send_request] raises the same
    exception; the message is on the wire, the identifier is spent, and
    the session token is the one held before. *)
Theorem transport_error_propagates
    (json_loads : string → option json)
    (server : list Exchange → Post → result Response)
    (m : string) (p : json) (st : State) (e : exn) :
  server (wire st) (request_post (client st) m p) = Raise e →
  _send_request json_loads server m p st
  = (Raise e,
     mkState
       (mkClient (base_url (client st)) (endpoint (client st))
                 (session_id (client st)) (message_id (client st) + 1))
       (wire st ++ [mkExchange (request_post (client st) m p) (Raise e)])).
Proof.
  intros Hr. rewrite _send_request_run. cbn zeta. cbn [reply].
  rewrite Hr. rewrite capture_request by reflexivity. reflexivity.
Qed.

Lemma transport_error_propagates_witness :
  fst (_send_request RefJson.loads MoreSamples.unreachable "tools/list" JNull
         (Samples.client_at (Some "abc") 4))
  = Raise (RequestException "connection refused")
  ∧ message_id (client (snd (_send_request RefJson.loads
                               MoreSamples.unreachable "tools/list" JNull
                               (Samples.client_at (Some "abc") 4))))
    = 5.
Proof.
  rewrite (transport_error_propagates RefJson.loads MoreSamples.unreachable
             "tools/list" JNull (Samples.client_at (Some "abc") 4)
             (RequestException "connection refused") eq_refl).
  split; reflexivity.
Defined.

(** X3. The session header of a response is read before its body is
    decoded: when the decoding raises, [_send_request] raises, and the
    client nevertheless holds the token that the response supplied. *)
Theorem token_captured_before_decode
    (json_loads : string → option json)
    (server : list Exchange → Post → result Response)
    (m : string) (p : json) (st : State)
    (r : Response) (t : string) (e : exn) :
  server (wire st) (request_post (client st) m p) = Ok r →
  CID.get session_header (headers r) = Some t →
  decode json_loads r = Raise e →
  fst (_send_request json_loads server m p st) = Raise e
  ∧ session_id (client (snd (_send_request json_loads server m p st)))
    = Some t.
Proof.
  intros Hr Ht He. rewrite _send_request_run. cbn zeta.
  cbn [fst snd reply client session_id].
  rewrite Hr, He. rewrite capture_request by reflexivity. rewrite Ht.
  split; reflexivity.
Qed.

Lemma token_captured_before_decode_witness :
  fst (_send_request RefJson.loads (λ _ _, Ok Samples.not_json)
         "initialize" initialize_params (fresh "http://h"))
  = Raise JSONDecodeError
  ∧ session_id (client (snd (_send_request RefJson.loads
                               (λ _ _, Ok Samples.not_json)
                               "initialize" initialize_params
                               (fresh "http://h"))))
    = Some "abc".
Proof.
  apply (token_captured_before_decode RefJson.loads
           (λ _ _, Ok Samples.not_json) "initialize" initialize_params
           (fresh "http://h") Samples.not_json "abc" JSONDecodeError).
  - reflexivity.
  - reflexivity.
  - reflexivity.
Defined.

Lemma initialize_request_raises_witness :
  fst (initialize RefJson.loads MoreSamples.unreachable (fresh "http://h"))
  = Raise (RequestException "connection refused")
  ∧ length (wire (snd (initialize RefJson.loads MoreSamples.unreachable
                         (fresh "http://h"))))
    = 1%nat.
Proof.
  destruct (initialize_request_raises RefJson.loads MoreSamples.unreachable
              (fresh "http://h") (RequestException "connection refused")
              eq_refl) as [Hres Hw].
  split; [exact Hres|]. rewrite Hw. reflexivity.
Defined.

(** ** Framing *)

Section Framing.

Variable json_loads : string → option json.
Variable server : list Exchange → Post → result Response.

Lemma request_headers_fixed c :
  request_headers c !! "Content-Type" = Some "application/json"
  ∧ request_headers c !! "Accept"
    = Some "application/json, text/event-stream".
Proof.
  unfold request_headers.
  destruct (session_id c) as [[|a t]|]; split; reflexivity.
Qed.

Lemma request_post_framed c m p r :
  well_framed (endpoint c) (mkExchange (request_post c m p) r).
Proof.
  destruct (request_headers_fixed c) as [H1 H2].
  repeat split; assumption || reflexivity.
Qed.

Lemma notification_post_framed c m p r :
  well_framed (endpoint c) (mkExchange (notification_post c m p) r).
Proof.
  destruct (request_headers_fixed c) as [H1 H2].
  repeat split; assumption || reflexivity.
Qed.

(** Running calls keeps the endpoint and adds framed messages only. *)
Lemma _send_request_framed m p st :
  endpoint (client (snd (_send_request json_loads server m p st)))
    = endpoint (client st)
  ∧ ∃ w, wire (snd (_send_request json_loads server m p st)) = wire st ++ w
         ∧ Forall (well_framed (endpoint (client st))) w.
Proof.
  rewrite _send_request_run. cbn zeta. cbn [snd client wire endpoint].
  split; [reflexivity|]. eexists. split; [reflexivity|].
  constructor; [apply request_post_framed|constructor].
Qed.

Lemma _send_notification_framed m p st :
  endpoint (client (snd (_send_notification server m p st)))
    = endpoint (client st)
  ∧ ∃ w, wire (snd (_send_notification server m p st)) = wire st ++ w
         ∧ Forall (well_framed (endpoint (client st))) w.
Proof.
  rewrite _send_notification_run. cbn zeta. cbn [snd client wire endpoint].
  split; [reflexivity|]. eexists. split; [reflexivity|].
  constructor; [apply notification_post_framed|constructor].
Qed.

Lemma run_call_framed c st :
  endpoint (client (snd (run_call json_loads server c st)))
    = endpoint (client st)
  ∧ ∃ w, wire (snd (run_call json_loads server c st)) = wire st ++ w
         ∧ Forall (well_framed (endpoint (client st))) w.
Proof.
  destruct c as [m p|m p| | |n a]; cbn [run_call].
  - apply _send_request_framed.
  - unfold mbind, M_bind, mret, M_ret.
    pose proof (_send_notification_framed m p st) as H.
    destruct (_send_notification server m p st) as [[[]|e] st1]; exact H.
  - unfold initialize, mbind, M_bind, mret, M_ret.
    pose proof (_send_request_framed "initialize" initialize_params st) as H1.
    destruct (_send_request json_loads server "initialize" initialize_params st)
      as [[v|e] st1]; [|exact H1].
    pose proof (_send_notification_framed "notifications/initialized" JNull st1)
      as H2.
    cbn [snd] in H1.
    destruct H1 as (He1 & w1 & Hw1 & Hf1).
    assert (H : endpoint (client (snd (_send_notification server
                  "notifications/initialized" JNull st1)))
                = endpoint (client st)
              ∧ ∃ w, wire (snd (_send_notification server
                       "notifications/initialized" JNull st1)) = wire st ++ w
                     ∧ Forall (well_framed (endpoint (client st))) w).
    { destruct H2 as (He2 & w2 & Hw2 & Hf2).
      split; [congruence|]. exists (w1 ++ w2).
      split; [rewrite Hw2, Hw1, <- app_assoc; reflexivity|].
      apply Forall_app. split; [exact Hf1|]. rewrite <- He1. exact Hf2. }
    destruct (_send_notification server "notifications/initialized" JNull st1)
      as [[[]|e] st2]; exact H.
  - apply _send_request_framed.
  - apply _send_request_framed.
Qed.

Lemma run_calls_framed cs st :
  endpoint (client (run_calls json_loads server cs st)) = endpoint (client st)
  ∧ ∃ w, wire (run_calls json_loads server cs st) = wire st ++ w
         ∧ Forall (well_framed (endpoint (client st))) w.
Proof.
  revert st. induction cs as [|c cs IH]; intros st.
  - split; [reflexivity|]. exists []. rewrite app_nil_r.
    split; [reflexivity|constructor].
  - cbn [run_calls].
    destruct (run_call_framed c st) as (He1 & w1 & Hw1 & Hf1).
    destruct (IH (snd (run_call json_loads server c st)))
      as (He2 & w2 & Hw2 & Hf2).
    split; [congruence|]. exists (w1 ++ w2).
    split; [rewrite Hw2, Hw1, <- app_assoc; reflexivity|].
    apply Forall_app. split; [exact Hf1|]. rewrite <- He1. exact Hf2.
Qed.

End Framing.

(** X5. Whatever calls are made on a client built for [base], in
    whatever order and with whatever outcome, every message goes to
    [base/mcp] with the content type [application/json], the [Accept]
    header for both transports, and the [jsonrpc] member ["2.0"]. *)
Theorem every_message_well_framed
    (json_loads : string → option json)
    (server : list Exchange → Post → result Response)
    (base : string) (cs : list call) :
  Forall (well_framed (base +:+ "/mcp"))
         (wire (run_calls json_loads server cs (fresh base))).
Proof.
  destruct (run_calls_framed json_loads server cs (fresh base))
    as (_ & w & Hw & Hf).
  rewrite Hw. exact Hf.
Qed.

(** ** Sessions and notifications *)

(** X6. Notifications alone never change the client: after any number
    of them the counter and the session token are what they were,
    whatever the responses were, session headers included. *)
Theorem notifications_leave_client_unchanged
    (json_loads : string → option json)
    (server : list Exchange → Post → result Response)
    (cs : list call) (st : State) :
  forallb is_notification_call cs = true →
  client (run_calls json_loads server cs st) = client st.
Proof.
  revert st. induction cs as [|c cs IH]; intros st Hcs; [reflexivity|].
  cbn [forallb] in Hcs. apply andb_prop in Hcs as [Hc Hcs].
  cbn [run_calls]. rewrite (IH _ Hcs).
  destruct c as [m p|m p| | |n a]; try discriminate Hc.
  cbn [run_call]. unfold mbind, M_bind, mret, M_ret.
  rewrite _send_notification_run. cbn zeta.
  destruct (reply _); reflexivity.
Qed.

Lemma notifications_leave_client_unchanged_witness :
  session_id
    (client (run_calls RefJson.loads (Samples.naming "abc")
               [SendNotification "notifications/initialized" JNull;
                SendNotification "notifications/cancelled" JNull]
               (fresh "http://h")))
  = None.
Proof.
  rewrite (notifications_leave_client_unchanged RefJson.loads
             (Samples.naming "abc")
             [SendNotification "notifications/initialized" JNull;
              SendNotification "notifications/cancelled" JNull]
             (fresh "http://h") eq_refl).
  reflexivity.
Defined.

(** ** Blank space around an event stream *)

Lemma append_cons c s t : String c s +:+ t = String c (s +:+ t).
Proof. reflexivity. Qed.

Lemma append_empty t : EmptyString +:+ t = t.
Proof. reflexivity. Qed.

Lemma lstrip_all_space ws :
  all_space ws = true → PyStr.lstrip ws = EmptyString.
Proof.
  induction ws as [|c ws IH]; [reflexivity|].
  cbn [all_space PyStr.lstrip]. intros H.
  apply andb_prop in H as [Hc Hws]. rewrite Hc. exact (IH Hws).
Qed.

Lemma rstrip_all_space ws :
  all_space ws = true → PyStr.rstrip ws = EmptyString.
Proof.
  induction ws as [|c ws IH]; [reflexivity|].
  cbn [all_space PyStr.rstrip]. intros H.
  apply andb_prop in H as [Hc Hws]. rewrite (IH Hws), Hc. reflexivity.
Qed.

Lemma lstrip_space_app ws s :
  all_space ws = true → PyStr.lstrip (ws +:+ s) = PyStr.lstrip s.
Proof.
  induction ws as [|c ws IH]; [reflexivity|].
  cbn [all_space]. intros H. apply andb_prop in H as [Hc Hws].
  rewrite append_cons. cbn [PyStr.lstrip]. rewrite Hc. exact (IH Hws).
Qed.

Lemma rstrip_app_space s ws :
  all_space ws = true → PyStr.rstrip (s +:+ ws) = PyStr.rstrip s.
Proof.
  intros Hws. induction s as [|c s IH].
  - rewrite append_empty. apply rstrip_all_space, Hws.
  - rewrite append_cons. cbn [PyStr.rstrip]. rewrite IH. reflexivity.
Qed.

Lemma strip_app_space s ws :
  all_space ws = true → PyStr.strip (s +:+ ws) = PyStr.strip s.
Proof.
  intros Hws. unfold PyStr.strip. induction s as [|c s IH].
  - rewrite append_empty, (lstrip_all_space _ Hws). reflexivity.
  - rewrite append_cons. cbn [PyStr.lstrip].
    destruct (PyStr.isspace c); [exact IH|].
    rewrite <- append_cons. apply rstrip_app_space, Hws.
Qed.

Lemma strip_padded a s b :
  all_space a = true → all_space b = true →
  PyStr.strip (a +:+ s +:+ b) = PyStr.strip s.
Proof.
  intros Ha Hb. unfold PyStr.strip. rewrite (lstrip_space_app _ _ Ha).
  apply (strip_app_space s b Hb).
Qed.

(** X7. Blank space before and after the body of an event-stream
    response (blank lines, trailing newlines, indentation of the first
    line) does not change what it decodes to. *)
Theorem event_stream_padding_ignored
    (json_loads : string → option json)
    (hs : CID.t) (a txt b : string) :
  CID.get "Content-Type" hs = Some "text/event-stream" →
  all_space a = true →
  all_space b = true →
  decode json_loads (mkResponse hs (a +:+ txt +:+ b))
  = decode json_loads (mkResponse hs txt).
Proof.
  intros Hct Ha Hb.
  rewrite !decode_event_stream_scan by exact Hct.
  cbn [text]. rewrite (strip_padded a txt b Ha Hb). reflexivity.
Qed.

Lemma event_stream_padding_ignored_witness :
  decode RefJson.loads
    (mkResponse (headers Samples.indented)
       (String PyStr.newline " " +:+ "data: 1" +:+
        String PyStr.newline (String PyStr.newline EmptyString)))
  = Ok (JInt 1).
Proof.
  rewrite (event_stream_padding_ignored RefJson.loads
             (headers Samples.indented)
             (String PyStr.newline " ") "data: 1"
             (String PyStr.newline (String PyStr.newline EmptyString))
             eq_refl eq_refl eq_refl).
  reflexivity.
Defined.

(** ** The name of the session header *)

(** X8. The session header is found in a response whatever the case of
    the letters of its name: a response that has it under any name that
    lower-cases to [mcp-session-id] leaves the client holding its
    value. *)
Theorem session_header_any_case
    (json_loads : string → option json)
    (server : list Exchange → Post → result Response)
    (m : string) (p : json) (st : State)
    (k t : string) (d : CID.t) (txt : string) :
  PyStr.lower k = "mcp-session-id" →
  server (wire st) (request_post (client st) m p)
    = Ok (mkResponse (CID.setitem k t d) txt) →
  session_id (client (snd (_send_request json_loads server m p st)))
  = Some t.
Proof.
  intros Hk Hr. rewrite _send_request_run. cbn zeta.
  cbn [snd client session_id reply]. rewrite Hr.
  rewrite capture_request by reflexivity. cbn [headers].
  unfold CID.get, CID.setitem. rewrite Hk.
  change (PyStr.lower session_header) with "mcp-session-id".
  rewrite lookup_insert_eq. reflexivity.
Qed.

Lemma session_header_any_case_witness :
  session_id
    (client (snd (_send_request RefJson.loads
                    (λ _ _, Ok (mkResponse
                                  (CID.setitem "MCP-SESSION-ID" "abc" ∅)
                                  Samples.ok_body))
                    "initialize" initialize_params (fresh "http://h"))))
  = Some "abc".
Proof.
  apply (session_header_any_case RefJson.loads
           (λ _ _, Ok (mkResponse (CID.setitem "MCP-SESSION-ID" "abc" ∅)
                         Samples.ok_body))
           "initialize" initialize_params (fresh "http://h")
           "MCP-SESSION-ID" "abc" ∅ Samples.ok_body).
  - reflexivity.
  - reflexivity.
Defined.

(** ** The listing of the tools *)


Lemma assoc_Some_truthy k l v :
  Json.assoc k l = Some v → Json.truthy (JObj l) = true.
Proof. destruct l; [discriminate|reflexivity]. Qed.


Lemma print_tools_without_result l :
  Json.assoc "result" l = None → print_tools (JObj l) = Done tt.
Proof.
  intros Hr. unfold print_tools.
  destruct (negb (Json.truthy (JObj l))); [reflexivity|].
  unfold mbind, outcome_bind. cbn [PyVal.contains]. rewrite Hr.
  rewrite bool_decide_eq_false_2 by (intros [? ?]; discriminate).
  reflexivity.
Qed.



(** X14. A [tools/list] answer whose [result] is [null], a boolean or a
    number makes the listing raise [TypeError]: the test for [tools] is
    applied to a value that is not iterable. *)
Theorem print_tools_scalar_result (l : list (string * json)) (v : json) :
  Json.assoc "result" l = Some v →
  match v with
  | JNull | JBool _ | JInt _ => True
  | _ => False
  end →
  print_tools (JObj l) = Failed TypeError.
Proof.
  intros Hr Hv. unfold print_tools.
  rewrite (assoc_Some_truthy _ _ _ Hr). cbn [negb].
  unfold mbind, outcome_bind. cbn [PyVal.contains PyVal.getitem].
  rewrite Hr. rewrite bool_decide_eq_true_2 by eauto. cbn [negb].
  destruct v; try contradiction; reflexivity.
Qed.

Lemma print_tools_scalar_result_witness :
  print_tools (JObj [("jsonrpc", JStr "2.0"); ("id", JInt 2);
                     ("result", JNull)])
  = Failed TypeError.
Proof.
  apply (print_tools_scalar_result
           [("jsonrpc", JStr "2.0"); ("id", JInt 2); ("result", JNull)]
           JNull eq_refl I).
Defined.

(** ** The driver *)

Section DriverSteps.

Variable json_loads : string → option json.
Variable server : list Exchange → Post → result Response.

(** What one [_send_request] adds to the wire, and how its outcome
    depends on the reply. *)
Lemma request_step m p st :
  ∃ x : Exchange,
    wire (snd (_send_request json_loads server m p st)) = wire st ++ [x]
    ∧ sent x = request_post (client st) m p
    ∧ reply x = server (wire st) (sent x)
    ∧ message_id (client (snd (_send_request json_loads server m p st)))
      = message_id (client st) + 1
    ∧ match fst (_send_request json_loads server m p st) with
      | Ok v => ∃ r, reply x = Ok r ∧ decode json_loads r = Ok v
      | Raise e =>
          reply x = Raise e
          ∨ ∃ r, reply x = Ok r ∧ decode json_loads r = Raise e
      end.
Proof.
  rewrite _send_request_run. cbn zeta. cbn [fst snd wire client message_id].
  eexists. split; [reflexivity|]. cbn [sent reply].
  split; [reflexivity|]. split; [reflexivity|]. split; [reflexivity|].
  destruct (server (wire st) (request_post (client st) m p)) as [r|e];
    [|left; reflexivity].
  destruct (decode json_loads r) as [v|e] eqn:Hd; eauto.
Qed.

Lemma notification_step m p st :
  ∃ x : Exchange,
    wire (snd (_send_notification server m p st)) = wire st ++ [x]
    ∧ sent x = notification_post (client st) m p
    ∧ reply x = server (wire st) (sent x)
    ∧ client (snd (_send_notification server m p st)) = client st
    ∧ match fst (_send_notification server m p st) with
      | Ok _ => ∃ r, reply x = Ok r
      | Raise e => reply x = Raise e
      end.
Proof.
  rewrite _send_notification_run. cbn zeta. cbn [fst snd wire client].
  eexists. split; [reflexivity|]. cbn [sent reply].
  split; [reflexivity|]. split; [reflexivity|]. split; [reflexivity|].
  destruct (server (wire st) (notification_post (client st) m p)); eauto.
Qed.

(** The handshake: both messages answered and the first decoded, or a
    failure at the message posted last. *)
Lemma initialize_step st :
  match fst (initialize json_loads server st) with
  | Ok v =>
      ∃ (x1 x2 : Exchange) (r1 r2 : Response),
        wire (snd (initialize json_loads server st)) = wire st ++ [x1; x2]
        ∧ sent x1 = request_post (client st) "initialize" initialize_params
        ∧ reply x1 = Ok r1 ∧ decode json_loads r1 = Ok v
        ∧ method_of x2 = Some (JStr "notifications/initialized")
        ∧ request_id (sent x2) = None
        ∧ reply x2 = Ok r2
        ∧ message_id (client (snd (initialize json_loads server st)))
          = message_id (client st) + 1
  | Raise e =>
      (∃ x1 : Exchange,
         wire (snd (initialize json_loads server st)) = wire st ++ [x1])
      ∨ (∃ (x1 x2 : Exchange) (r1 : Response),
           wire (snd (initialize json_loads server st)) = wire st ++ [x1; x2]
           ∧ reply x1 = Ok r1 ∧ reply x2 = Raise e)
  end.
Proof.
  unfold initialize, mbind, M_bind, mret, M_ret.
  destruct (request_step "initialize" initialize_params st)
    as (x1 & Hw1 & Hs1 & _ & Hm1 & Ho1).
  destruct (_send_request json_loads server "initialize" initialize_params st)
    as [[v|e] st1]; cbn [fst snd] in *; [|left; eauto].
  destruct Ho1 as (r1 & Hr1 & Hd1).
  destruct (notification_step "notifications/initialized" JNull st1)
    as (x2 & Hw2 & Hs2 & _ & Hc2 & Ho2).
  destruct (_send_notification server "notifications/initialized" JNull st1)
    as [[[]|e] st2]; cbn [fst snd] in *.
  - destruct Ho2 as (r2 & Hr2).
    exists x1, x2, r1, r2. rewrite Hw2, Hw1, <- app_assoc, Hc2.
    unfold method_of. rewrite Hs2.
    repeat split; assumption || reflexivity.
  - right. exists x1, x2, r1. rewrite Hw2, Hw1, <- app_assoc.
    repeat split; assumption.
Qed.

End DriverSteps.

Lemma run_calls_snoc json_loads server cs c st :
  run_calls json_loads server (cs ++ [c]) st
  = snd (run_call json_loads server c (run_calls json_loads server cs st)).
Proof.
  revert st. induction cs as [|c' cs IH]; intros st; [reflexivity|].
  cbn [app run_calls]. apply IH.
Qed.

Lemma main_prefix
    (json_loads : string → option json)
    (server : list Exchange → Post → result Response)
    (argv : list string) :
  ∃ k : nat,
    (k ≤ 4)%nat
    ∧ snd (main json_loads server argv)
      = run_calls json_loads server (firstn k driver_calls)
          (fresh (base_of argv))
    ∧ (fst (main json_loads server argv) = 0
       ∨ fst (main json_loads server argv) = 1)
    ∧ (fst (main json_loads server argv) = 0 → k = 4%nat).
Proof.
  unfold main, main_try.
  change (mkState (__init__ (base_of argv)) []) with (fresh (base_of argv)).
  set (st0 := fresh (base_of argv)).
  destruct (initialize json_loads server st0) as [[v1|e1] st1] eqn:H1.
  2:{ exists 1%nat. cbn [firstn driver_calls run_calls run_call fst snd].
      rewrite H1. repeat split; try lia; eauto; discriminate. }
  destruct (list_tools json_loads server st1) as [[v2|e2] st2] eqn:H2.
  2:{ exists 2%nat. cbn [firstn driver_calls run_calls run_call fst snd].
      rewrite H1. cbn [snd]. rewrite H2.
      repeat split; try lia; eauto; discriminate. }
  destruct (print_tools v2) as [[]|e].
  2:{ exists 2%nat. cbn [firstn driver_calls run_calls run_call fst snd].
      rewrite H1. cbn [snd]. rewrite H2.
      repeat split; try lia; eauto; discriminate. }
  destruct (call_tool json_loads server "check_dependencies" JNull st2)
    as [[v3|e3] st3] eqn:H3.
  2:{ exists 3%nat. cbn [firstn driver_calls run_calls run_call fst snd].
      rewrite H1. cbn [snd]. rewrite H2. cbn [snd]. rewrite H3.
      repeat split; try lia; eauto; discriminate. }
  destruct (call_tool json_loads server "list_supported_sites" JNull st3)
    as [[v4|e4] st4] eqn:H4;
    exists 4%nat; cbn [firstn driver_calls run_calls run_call fst snd];
    rewrite H1; cbn [snd]; rewrite H2; cbn [snd]; rewrite H3; cbn [snd];
    rewrite H4; repeat split; try lia; eauto.
Qed.

Lemma call_result_0 json_loads server argv :
  call_result json_loads server argv 0
  = Some (fst (initialize json_loads server (fresh (base_of argv)))).
Proof. reflexivity. Qed.

Lemma call_result_1 json_loads server argv :
  call_result json_loads server argv 1
  = Some (fst (list_tools json_loads server
                 (snd (initialize json_loads server (fresh (base_of argv)))))).
Proof. reflexivity. Qed.

Lemma call_result_2 json_loads server argv :
  call_result json_loads server argv 2
  = Some (fst (call_tool json_loads server "check_dependencies" JNull
                 (snd (list_tools json_loads server
                         (snd (initialize json_loads server
                                 (fresh (base_of argv)))))))).
Proof. reflexivity. Qed.

Lemma call_result_3 json_loads server argv :
  call_result json_loads server argv 3
  = Some (fst (call_tool json_loads server "list_supported_sites" JNull
                 (snd (call_tool json_loads server "check_dependencies" JNull
                         (snd (list_tools json_loads server
                                 (snd (initialize json_loads server
                                         (fresh (base_of argv)))))))))).
Proof. reflexivity. Qed.

Ltac use_runs :=
  rewrite ?call_result_0, ?call_result_1, ?call_result_2, ?call_result_3;
  repeat (match goal with
          | H : ?t = (_, _) |- context [?t] => rewrite H
          end; cbn [fst snd]).

(** X9. [main] makes its four calls in order on a fresh client and stops
    at the first that raises, or after [list_tools] when the listing of
    the tools raises.  With [k] the number of calls made: what [main]
    leaves behind is what those [k] calls leave behind; every call but
    the last made has returned; the third call is made only after a
    listing that went through; the exit status is 0 when all four calls
    have returned, and 1 when the last call made has raised or, after two
    calls, the listing has. *)
Theorem main_runs_driver_calls
    (json_loads : string → option json)
    (server : list Exchange → Post → result Response)
    (argv : list string) :
  ∃ k : nat,
    (1 ≤ k ≤ 4)%nat
    ∧ snd (main json_loads server argv)
      = run_calls json_loads server (firstn k driver_calls)
          (fresh (base_of argv))
    ∧ (∀ j : nat, (S j < k)%nat →
         ∃ v, call_result json_loads server argv j = Some (Ok v))
    ∧ ((2 < k)%nat →
       ∃ v, call_result json_loads server argv 1 = Some (Ok v)
            ∧ print_tools v = Done tt)
    ∧ ((fst (main json_loads server argv) = 0
        ∧ k = 4%nat
        ∧ ∃ v, call_result json_loads server argv 3 = Some (Ok v))
       ∨ (fst (main json_loads server argv) = 1
          ∧ ((∃ e, call_result json_loads server argv (k - 1)
                   = Some (Raise e))
             ∨ (k = 2%nat
                ∧ ∃ v e, call_result json_loads server argv 1 = Some (Ok v)
                         ∧ print_tools v = Failed e)))).
Proof.
  unfold main, main_try.
  change (mkState (__init__ (base_of argv)) []) with (fresh (base_of argv)).
  destruct (initialize json_loads server (fresh (base_of argv)))
    as [[v1|e1] st1] eqn:H1.
  2:{ exists 1%nat. cbn [firstn driver_calls run_calls run_call fst snd].
      split; [lia|]. split; [use_runs; reflexivity|].
      split; [intros j Hj; lia|]. split; [intros Hk; lia|].
      right. split; [reflexivity|]. left. exists e1.
      cbn [Nat.sub]. use_runs. reflexivity. }
  destruct (list_tools json_loads server st1) as [[v2|e2] st2] eqn:H2.
  2:{ exists 2%nat. cbn [firstn driver_calls run_calls run_call fst snd].
      split; [lia|]. split; [use_runs; reflexivity|].
      split.
      { intros j Hj. destruct j as [|j]; [|lia]. use_runs. eauto. }
      split; [intros Hk; lia|].
      right. split; [reflexivity|]. left. exists e2.
      cbn [Nat.sub]. use_runs. reflexivity. }
  destruct (print_tools v2) as [[]|e] eqn:Hp.
  2:{ exists 2%nat. cbn [firstn driver_calls run_calls run_call fst snd].
      split; [lia|]. split; [use_runs; reflexivity|].
      split.
      { intros j Hj. destruct j as [|j]; [|lia]. use_runs. eauto. }
      split; [intros Hk; lia|].
      right. split; [reflexivity|]. right. split; [reflexivity|].
      exists v2, e. use_runs. split; [reflexivity|exact Hp]. }
  destruct (call_tool json_loads server "check_dependencies" JNull st2)
    as [[v3|e3] st3] eqn:H3.
  2:{ exists 3%nat. cbn [firstn driver_calls run_calls run_call fst snd].
      split; [lia|]. split; [use_runs; reflexivity|].
      split.
      { intros j Hj. destruct j as [|[|j]]; [| |lia]; use_runs; eauto. }
      split.
      { intros _. exists v2. use_runs. split; [reflexivity|exact Hp]. }
      right. split; [reflexivity|]. left. exists e3.
      cbn [Nat.sub]. use_runs. reflexivity. }
  destruct (call_tool json_loads server "list_supported_sites" JNull st3)
    as [[v4|e4] st4] eqn:H4;
    exists 4%nat; cbn [firstn driver_calls run_calls run_call fst snd];
    (split; [lia|]); (split; [use_runs; reflexivity|]);
    (split;
     [intros j Hj; destruct j as [|[|[|j]]]; [| | |lia]; use_runs; eauto|]);
    (split; [intros _; exists v2; use_runs; split; [reflexivity|exact Hp]|]).
  - left. split; [reflexivity|]. split; [reflexivity|].
    exists v4. use_runs. reflexivity.
  - right. split; [reflexivity|]. left. exists e4.
    cbn [Nat.sub]. use_runs. reflexivity.
Qed.

Lemma main_runs_driver_calls_witness :
  fst (main RefJson.loads MoreSamples.listing ["client.py"; "http://h"]) = 0
  ∧ snd (main RefJson.loads MoreSamples.listing ["client.py"; "http://h"])
    = run_calls RefJson.loads MoreSamples.listing driver_calls
        (fresh "http://h").
Proof.
  destruct (main_runs_driver_calls RefJson.loads MoreSamples.listing
              ["client.py"; "http://h"])
    as (k & _ & Hk & _ & _ & [(H0 & -> & _)|(H1 & _)]).
  - split; [exact H0|exact Hk].
  - vm_compute in H1. discriminate H1.
Defined.

Ltac wire_position i Hi :=
  cbn [app] in Hi;
  repeat (destruct i as [|i]; simpl in Hi; [injection Hi as <-|]);
  try match goal with
      | H : None = Some _ |- _ => discriminate H
      | H : _ !! _ = Some _ |- _ => rewrite lookup_nil in H; discriminate H
      end.

(** X10. [main] stops at the first message that the transport fails to
    deliver: an exchange of its wire whose reply is an exception of
    [requests.post] is the last one, and the exit status is 1. *)
Theorem main_stops_at_transport_error
    (json_loads : string → option json)
    (server : list Exchange → Post → result Response)
    (argv : list string) (i : nat) (x : Exchange) (e : exn) :
  wire (snd (main json_loads server argv)) !! i = Some x →
  reply x = Raise e →
  length (wire (snd (main json_loads server argv))) = S i
  ∧ fst (main json_loads server argv) = 1.
Proof.
  unfold main, main_try.
  pose proof (initialize_step json_loads server
                (mkState (__init__ (base_of argv)) [])) as I1.
  destruct (initialize json_loads server _) as [[v1|e1] st1];
    cbn [fst snd wire] in I1.
  2:{ cbn [fst snd].
      destruct I1 as [(x1 & ->)|(x1 & x2 & r1 & -> & Hr1 & Hr2)];
        intros Hi Hx; wire_position i Hi;
        (split; reflexivity) || congruence. }
  destruct I1 as (x1 & x2 & r1 & r2 & Hw1 & _ & Hr1 & _ & _ & _ & Hr2 & _).
  unfold list_tools.
  destruct (request_step json_loads server "tools/list" JNull st1)
    as (x3 & Hw3 & _ & _ & _ & Ho3).
  destruct (_send_request json_loads server "tools/list" JNull st1)
    as [[v2|e2] st2]; cbn [fst snd] in Hw3, Ho3; rewrite Hw1 in Hw3.
  2:{ cbn [fst snd]. rewrite Hw3. intros Hi Hx. wire_position i Hi;
        (split; reflexivity) || congruence. }
  destruct Ho3 as (r3 & Hr3 & _).
  destruct (print_tools v2) as [[]|e'].
  2:{ cbn [fst snd]. rewrite Hw3. intros Hi Hx. wire_position i Hi;
        (split; reflexivity) || congruence. }
  unfold call_tool.
  match goal with
  | |- context [_send_request json_loads server ?m ?p st2] =>
      destruct (request_step json_loads server m p st2)
        as (x4 & Hw4 & _ & _ & _ & Ho4);
      destruct (_send_request json_loads server m p st2)
        as [[v3|e3] st3]; cbn [fst snd] in Hw4, Ho4; rewrite Hw3 in Hw4
  end.
  2:{ cbn [fst snd]. rewrite Hw4. intros Hi Hx. wire_position i Hi;
        (split; reflexivity) || congruence. }
  destruct Ho4 as (r4 & Hr4 & _).
  match goal with
  | |- context [_send_request json_loads server ?m ?p st3] =>
      destruct (request_step json_loads server m p st3)
        as (x5 & Hw5 & _ & _ & _ & Ho5);
      destruct (_send_request json_loads server m p st3)
        as [[v4|e4] st4]; cbn [fst snd] in Hw5, Ho5; rewrite Hw4 in Hw5
  end.
  2:{ cbn [fst snd]. rewrite Hw5. intros Hi Hx. wire_position i Hi;
        (split; reflexivity) || congruence. }
  destruct Ho5 as (r5 & Hr5 & _).
  cbn [fst snd]. rewrite Hw5. intros Hi Hx. wire_position i Hi; congruence.
Qed.

Lemma main_stops_at_transport_error_witness :
  length (wire (snd (main RefJson.loads MoreSamples.reached_once [])))
  = 2%nat
  ∧ fst (main RefJson.loads MoreSamples.reached_once []) = 1.
Proof.
  apply (main_stops_at_transport_error RefJson.loads
           MoreSamples.reached_once [] 1
           (nth 1 (wire (snd (main RefJson.loads MoreSamples.reached_once [])))
                Samples.nothing)
           (RequestException "connection reset")).
  - vm_compute. reflexivity.
  - reflexivity.
Defined.

(** X11. When [main] exits with status 0 it has posted exactly five
    messages, in this order: [initialize], the [initialized]
    notification, [tools/list], and two [tools/call]; the requests have
    the ids 1 to 4 and every message got a response. *)
Theorem main_success_wire
    (json_loads : string → option json)
    (server : list Exchange → Post → result Response)
    (argv : list string) :
  fst (main json_loads server argv) = 0 →
  map method_of (wire (snd (main json_loads server argv)))
    = [Some (JStr "initialize"); Some (JStr "notifications/initialized");
       Some (JStr "tools/list"); Some (JStr "tools/call");
       Some (JStr "tools/call")]
  ∧ request_ids (wire (snd (main json_loads server argv)))
    = [JInt 1; JInt 2; JInt 3; JInt 4]
  ∧ Forall (λ x, ∃ r, reply x = Ok r)
           (wire (snd (main json_loads server argv))).
Proof.
  unfold main, main_try.
  pose proof (initialize_step json_loads server
                (mkState (__init__ (base_of argv)) [])) as I1.
  destruct (initialize json_loads server _) as [[v1|e1] st1];
    cbn [fst snd wire client message_id __init__] in I1;
    [|discriminate].
  destruct I1 as (x1 & x2 & r1 & r2 & Hw1 & Hs1 & Hr1 & _ & Hm2 & Hi2 & Hr2 & Hn1).
  unfold list_tools.
  destruct (request_step json_loads server "tools/list" JNull st1)
    as (x3 & Hw3 & Hs3 & _ & Hn3 & Ho3).
  destruct (_send_request json_loads server "tools/list" JNull st1)
    as [[v2|e2] st2]; cbn [fst snd] in Hw3, Hn3, Ho3; rewrite Hw1 in Hw3;
    [|discriminate].
  destruct Ho3 as (r3 & Hr3 & _).
  destruct (print_tools v2) as [[]|e']; [|discriminate].
  unfold call_tool.
  match goal with
  | |- context [_send_request json_loads server ?m ?p st2] =>
      destruct (request_step json_loads server m p st2)
        as (x4 & Hw4 & Hs4 & _ & Hn4 & Ho4);
      destruct (_send_request json_loads server m p st2)
        as [[v3|e3] st3]; cbn [fst snd] in Hw4, Hn4, Ho4; rewrite Hw3 in Hw4;
        [|discriminate]
  end.
  destruct Ho4 as (r4 & Hr4 & _).
  match goal with
  | |- context [_send_request json_loads server ?m ?p st3] =>
      destruct (request_step json_loads server m p st3)
        as (x5 & Hw5 & Hs5 & _ & Hn5 & Ho5);
      destruct (_send_request json_loads server m p st3)
        as [[v4|e4] st4]; cbn [fst snd] in Hw5, Hn5, Ho5; rewrite Hw4 in Hw5;
        [|discriminate]
  end.
  destruct Ho5 as (r5 & Hr5 & _).
  intros _. cbn [fst snd]. rewrite Hw5. cbn [app map].
  split; [|split].
  - unfold method_of in *. rewrite Hm2, Hs1, Hs3, Hs4, Hs5. reflexivity.
  - rewrite !request_ids_cons, Hi2, Hs1, Hs3, Hs4, Hs5.
    rewrite !request_id_request_post. cbn [message_id].
    rewrite Hn4, Hn3, Hn1. reflexivity.
  - repeat constructor; eauto.
Qed.

Lemma main_success_wire_witness :
  request_ids
    (wire (snd (main RefJson.loads MoreSamples.listing ["client.py"])))
  = [JInt 1; JInt 2; JInt 3; JInt 4].
Proof.
  apply (main_success_wire RefJson.loads MoreSamples.listing ["client.py"]).
  reflexivity.
Defined.

Section Refused.

Variable json_loads : string → option json.
Variable server : list Exchange → Post → result Response.

Hypothesis refused :
  ∀ w p, ∃ r l,
    server w p = Ok r
    ∧ decode json_loads r = Ok (JObj l)
    ∧ Json.assoc "result" l = None.

Lemma request_refused m p st :
  ∃ l st',
    _send_request json_loads server m p st = (Ok (JObj l), st')
    ∧ Json.assoc "result" l = None
    ∧ length (wire st') = S (length (wire st)).
Proof.
  rewrite _send_request_run. cbn zeta. cbn [reply].
  destruct (refused (wire st) (request_post (client st) m p))
    as (r & l & -> & -> & Hl).
  eexists l, _. split; [reflexivity|]. split; [exact Hl|].
  cbn [wire]. rewrite length_app. cbn [length]. lia.
Qed.

Lemma notification_refused m p st :
  ∃ st',
    _send_notification server m p st = (Ok tt, st')
    ∧ length (wire st') = S (length (wire st)).
Proof.
  rewrite _send_notification_run. cbn zeta. cbn [reply].
  destruct (refused (wire st) (notification_post (client st) m p))
    as (r & l & -> & _).
  eexists. split; [reflexivity|].
  cbn [wire]. rewrite length_app. cbn [length]. lia.
Qed.

Lemma main_refused argv :
  fst (main json_loads server argv) = 0
  ∧ length (wire (snd (main json_loads server argv))) = 5%nat.
Proof.
  unfold main, main_try, initialize, list_tools, call_tool,
    mbind, M_bind, mret, M_ret.
  match goal with
  | |- context [_send_request json_loads server ?m ?p ?st] =>
      destruct (request_refused m p st) as (l1 & st1 & -> & _ & Hn1)
  end.
  destruct (notification_refused "notifications/initialized" JNull st1)
    as (st2 & -> & Hn2).
  match goal with
  | |- context [_send_request json_loads server ?m ?p ?st] =>
      destruct (request_refused m p st) as (l3 & st3 & -> & Hl3 & Hn3)
  end.
  rewrite (print_tools_without_result l3 Hl3).
  match goal with
  | |- context [_send_request json_loads server ?m ?p ?st] =>
      destruct (request_refused m p st) as (l4 & st4 & -> & _ & Hn4)
  end.
  match goal with
  | |- context [_send_request json_loads server ?m ?p ?st] =>
      destruct (request_refused m p st) as (l5 & st5 & -> & _ & Hn5)
  end.
  cbn [fst snd]. split; [reflexivity|].
  rewrite Hn5, Hn4, Hn3, Hn2, Hn1. reflexivity.
Qed.

End Refused.

(** X12. [main] takes no notice of JSON-RPC errors: if every response
    decodes to an object without a [result] member, an error object for
    instance, all five messages are posted and the exit status is 0. *)
Theorem main_ignores_error_objects
    (json_loads : string → option json)
    (server : list Exchange → Post → result Response)
    (argv : list string) :
  (∀ w p, ∃ r l,
     server w p = Ok r
     ∧ decode json_loads r = Ok (JObj l)
     ∧ Json.assoc "result" l = None) →
  fst (main json_loads server argv) = 0
  ∧ length (wire (snd (main json_loads server argv))) = 5%nat.
Proof. intros H. apply main_refused, H. Qed.

Lemma main_ignores_error_objects_witness :
  fst (main RefJson.loads MoreSamples.refusing []) = 0
  ∧ length (wire (snd (main RefJson.loads MoreSamples.refusing []))) = 5%nat.
Proof.
  apply (main_ignores_error_objects RefJson.loads MoreSamples.refusing []).
  intros w p. eexists _, _. split; [reflexivity|]. split; reflexivity.
Defined.

(** X15. Every message [main] posts goes to the endpoint of the base
    URL given as the first command-line argument, or of
    [http://127.0.0.1:8080] when there is none, in the fixed framing. *)
Theorem main_posts_to_endpoint
    (json_loads : string → option json)
    (server : list Exchange → Post → result Response)
    (argv : list string) :
  Forall (well_framed
            (match argv with
             | _ :: a :: _ => a
             | _ => "http://127.0.0.1:8080"
             end +:+ "/mcp"))
         (wire (snd (main json_loads server argv))).
Proof.
  destruct (main_prefix json_loads server argv) as (k & _ & -> & _).
  destruct (run_calls_framed json_loads server (firstn k driver_calls)
              (fresh (base_of argv))) as (_ & w & -> & Hf).
  exact Hf.
Qed.
